(** * Bhatekpos point-of-sale backend: checkout, validation, shop resolution

    A shallow embedding of [app/sale/services.py], [app/sale/schemas.py] and
    [app/home/routes.py], with the properties of the written specification
    stated and settled against it.

    Modelling conventions.
    - A Python [Decimal] is an exact rational ([Q]).  The amounts of a sale
      are built with [Decimal(str(x))], products, sums, one division by five
      and one [quantize]; all of these are exact on decimals as long as the
      context precision (28 significant digits) is not exceeded, and the
      model does not bound the number of digits.  The [float(...)]
      conversions at the persistence boundary are the identity.
    - A table with a primary key is a finite map ([gmap]) from the key to the
      row; tables read in row order are lists.
    - [db.session] is a pair of stores: the committed one, and the working
      copy that a transaction reads and writes until [commit] or [rollback].
    - A Python exception is a value of [exn]; a call that may raise returns
      a [result]. *)

From Stdlib Require Import ZArith QArith Qround Qabs Lia Lqa Ascii String.
From stdpp Require Import base option list sorting gmap strings pretty.

(** ** Exceptions *)

Inductive exn : Type :=
| ValueError (msg : string)
| ValidationError (msg : string)
| KeyError (key : string)
| NameError (name : string)
| AttributeError (msg : string).

(** [str(e)] *)
Definition exn_str (e : exn) : string :=
  match e with
  | ValueError m => m
  | ValidationError m => m
  | KeyError k => "'" +:+ k +:+ "'"
  | NameError n => "name '" +:+ n +:+ "' is not defined"
  | AttributeError m => m
  end.

Inductive result (A : Type) : Type :=
| Ok (a : A)
| Raise (e : exn).
Arguments Ok {A} a.
Arguments Raise {A} e.

Global Instance result_ret : MRet result := @Ok.
Global Instance result_bind : MBind result := λ A B k r,
  match r with
  | Ok a => k a
  | Raise e => Raise e
  end.

(** [if cond: raise e] *)
Definition raise_if (cond : bool) (e : exn) : result unit :=
  if cond then Raise e else Ok ().

Definition is_ok {A} (r : result A) : bool :=
  match r with Ok _ => true | Raise _ => false end.

(** ** Decimal arithmetic *)

Module Decimal.
Local Open Scope Q_scope.

(** [x.to_integral_value(rounding=ROUND_UP)]: round away from zero. *)
Definition to_integral_ROUND_UP (x : Q) : Z :=
  if Qle_bool 0 x then Qceiling x else Qfloor x.

(** Round to the nearest integer, ties to the even neighbour
    (ROUND_HALF_EVEN, the rounding of the default context). *)
Definition round_half_even (x : Q) : Z :=
  let f := Qfloor x in
  match Qcompare (x - inject_Z f) (1 # 2) with
  | Lt => f
  | Gt => (f + 1)%Z
  | Eq => if Z.even f then f else (f + 1)%Z
  end.

(** [x.quantize(Decimal('0.01'))] *)
Definition quantize_cents (x : Q) : Q :=
  inject_Z (round_half_even (x * 100)) / 100.

End Decimal.

(** The helper local to [process_checkout]:
    [(amount / Decimal('5')).to_integral_value(rounding=ROUND_UP) * Decimal('5')] *)
Definition round_up_to_nearest_five (amount : Q) : Q :=
  (inject_Z (Decimal.to_integral_ROUND_UP (amount / 5)) * 5)%Q.

(** ** Python truthiness of optional strings *)

(** [bool(x)] for [x : Optional[str]]: [None] and [''] are falsy. *)
Definition truthy (o : option string) : bool :=
  match o with
  | Some s => negb (bool_decide (s = ""))
  | None => false
  end.

(** [str(x)] inside an f-string, for [x : Optional[str]]. *)
Definition str_opt (o : option string) : string :=
  match o with
  | Some s => s
  | None => "None"
  end.

(** ** Sale validation schemas ([app/sale/schemas.py]) *)

Module Schemas.

(** The three fields of a checkout payload that the payment rules read.
    [None] stands for a key that is missing or [null]: [data.get(...)] gives
    [None] for both. *)
Record CheckoutData : Type := mkCheckoutData {
  payment_mode : option string;
  payment_method : option string;
  customer_name : option string
}.

(** [validate.OneOf(choices)] *)
Definition OneOf (choices : list string) (v : string) : bool :=
  bool_decide (v ∈ choices).

(** Field declarations of [CheckoutSchema]:
    [payment_mode] is required and one of pay_now / pay_later;
    [payment_method] allows [None], otherwise one of cash / mobile /
    pay_on_delivery; [customer_name] allows [None] and is unconstrained. *)
Definition field_payment_mode (v : option string) : result unit :=
  match v with
  | None => Raise (ValidationError "Missing data for required field.")
  | Some s =>
      raise_if (negb (OneOf ["pay_now"; "pay_later"] s))
        (ValidationError "Must be one of: pay_now, pay_later.")
  end.

Definition field_payment_method (v : option string) : result unit :=
  match v with
  | None => Ok ()
  | Some s =>
      raise_if (negb (OneOf ["cash"; "mobile"; "pay_on_delivery"] s))
        (ValidationError "Must be one of: cash, mobile, pay_on_delivery.")
  end.

Definition field_customer_name (v : option string) : result unit := Ok ().

(** [CheckoutSchema.validate_payment_fields] (a [validates_schema] hook; it
    also writes the default method into [data]). *)
Definition validate_payment_fields (data : CheckoutData) : result CheckoutData :=
  let payment_mode := payment_mode data in
  let payment_method := payment_method data in
  let customer_name := customer_name data in
  if bool_decide (payment_mode = Some "pay_now") then
    raise_if (negb (truthy payment_method))
      (ValidationError "Payment method is required when payment mode is 'pay_now'.") ;;
    raise_if (negb (bool_decide (payment_method ∈ [Some "cash"; Some "mobile"])))
      (ValidationError "For pay_now mode, payment method must be either 'cash' or 'mobile'.") ;;
    Ok data
  else if bool_decide (payment_mode = Some "pay_later") then
    raise_if (negb (truthy customer_name))
      (ValidationError "Customer name is required for 'pay_later' sales.") ;;
    raise_if (truthy payment_method && negb (bool_decide (payment_method = Some "pay_on_delivery")))
      (ValidationError "For pay_later mode, payment method should be 'pay_on_delivery' or not provided.") ;;
    if negb (truthy payment_method)
    then Ok (mkCheckoutData payment_mode (Some "pay_on_delivery") customer_name)
    else Ok data
  else Ok data.

(** [CheckoutSchema.set_default_payment_method] (a [post_load] hook). *)
Definition set_default_payment_method (data : CheckoutData) : CheckoutData :=
  if bool_decide (payment_mode data = Some "pay_later") && negb (truthy (payment_method data))
  then mkCheckoutData (payment_mode data) (Some "pay_on_delivery") (customer_name data)
  else data.

(** [CheckoutSchema().load(data)] on the three fields: the field validators
    run first, the schema hook runs only when no field failed, and the
    post-load hook runs last. *)
Definition CheckoutSchema_load (data : CheckoutData) : result CheckoutData :=
  field_payment_mode (payment_mode data) ;;
  field_payment_method (payment_method data) ;;
  field_customer_name (customer_name data) ;;
  data' ← validate_payment_fields data ;
  Ok (set_default_payment_method data').

(** The pairing rule in the words of the specification. *)
Definition pairing_rule (mode method name : option string) : Prop :=
  (mode = Some "pay_now" /\ (method = Some "cash" \/ method = Some "mobile"))
  \/ (mode = Some "pay_later"
      /\ (method = None \/ method = Some "pay_on_delivery")
      /\ exists s, name = Some s /\ s <> "").

End Schemas.

(** ** Sale business services ([app/sale/services.py]) *)

Module Services.
Local Open Scope Q_scope.

(** *** Entities

    Modelled from the spec: the entity classes of [app/models] are not among
    the sources.  Each record has the columns that the services read or
    write, as the data model of the specification names them. *)

(** Modelled from the spec: the [SaleStatus] enumeration is not among the
    sources; "status (enumerated: at minimum COMPLETED, PENDING)". *)
Inductive SaleStatus : Type := COMPLETED | PENDING.

(** A [Product] row; the primary key is the key of the table. *)
Record Product : Type := mkProduct {
  product_shop_id : Z;
  product_name : string;
  product_stock : Q;
  product_cost_price : Q
}.

Record Tax : Type := mkTax {
  tax_shop_id : Z;
  tax_rate : Q;
  tax_is_active : bool;
  tax_is_deleted : bool
}.

Record CartItem : Type := mkCartItem {
  item_sale_id : Z;
  item_shop_id : Z;
  item_product_id : Z;
  item_quantity : Q;
  item_unit_price : Q;
  item_total_price : Q
}.

Record Sale : Type := mkSale {
  sale_id : Z;
  sale_shop_id : Z;
  sale_user_id : Z;
  sale_date : Z;
  sale_total : Q;
  sale_payment_mode : string;
  sale_payment_method : option string;
  sale_customer_name : option string;
  sale_customer_phone : option string;
  sale_notes : option string;
  sale_status : SaleStatus;
  sale_is_paid : bool
}.

Record Database : Type := mkDatabase {
  products : gmap Z Product;
  taxes : list Tax;
  sales : list Sale;
  cart_items : list CartItem
}.

(** Arguments of a [run_checkout_tasks] thread. *)
Record Task : Type := mkTask {
  task_sale_id : Z;
  task_shop_id : Z;
  task_user_id : Z;
  task_total : Q;
  task_item_count : nat
}.

(** *** The process state: [db.session], started threads, the clock *)

Record State : Type := mkState {
  committed : Database;
  working : Database;
  threads : list Task;
  clock : Z
}.

Definition set_working (db : Database) (s : State) : State :=
  mkState (committed s) db (threads s) (clock s).

Definition set_products (m : gmap Z Product) (db : Database) : Database :=
  mkDatabase m (taxes db) (sales db) (cart_items db).

Definition set_stock (q : Q) (p : Product) : Product :=
  mkProduct (product_shop_id p) (product_name p) q (product_cost_price p).

(** Stateful code that may raise: the state survives an exception, so that
    a handler can roll the session back. *)
Definition M (A : Type) : Type := State -> result A * State.

Global Instance M_ret : MRet M := λ A a s, (Ok a, s).
Global Instance M_bind : MBind M := λ A B k m s,
  match m s with
  | (Ok a, s') => k a s'
  | (Raise e, s') => (Raise e, s')
  end.

Definition raise {A} (e : exn) : M A := λ s, (Raise e, s).
Definition lift {A} (r : result A) : M A := λ s, (r, s).
Definition gets {A} (f : State -> A) : M A := λ s, (Ok (f s), s).
Definition modify (f : State -> State) : M unit := λ s, (Ok (), f s).

(** [try: body  except Exception as e: handler(e)] *)
Definition try_except {A} (body : M A) (handler : exn -> M A) : M A := λ s,
  match body s with
  | (Ok a, s') => (Ok a, s')
  | (Raise e, s') => handler e s'
  end.

(** [db.session.commit()] and [db.session.rollback()] *)
Definition db_session_commit : M unit :=
  modify (λ s, mkState (working s) (working s) (threads s) (clock s)).

Definition db_session_rollback : M unit :=
  modify (λ s, mkState (committed s) (committed s) (threads s) (clock s)).

(** [threading.Thread(target=run_checkout_tasks, args=..., daemon=True).start()] *)
Definition start_thread (t : Task) : M unit :=
  modify (λ s, mkState (committed s) (working s) (threads s ++ [t]) (clock s)).

(** A session with nothing pending. *)
Definition clean (s : State) : Prop := working s = committed s.

(** *** Request payloads *)

(** A value read from a cart dictionary: the key may be missing
    ([KeyError]), or the conversion ([int(...)], [Decimal(str(...))]) may
    raise. *)
Inductive raw (A : Type) : Type :=
| Missing
| Malformed (e : exn)
| Val (a : A).
Arguments Missing {A}.
Arguments Malformed {A} e.
Arguments Val {A} a.

Record RawCartItem : Type := mkRawCartItem {
  raw_product_id : raw Z;
  raw_quantity : raw Q;
  raw_price : raw Q
}.

(** A normalized cart line: [{'product_id': int, 'quantity': Decimal, 'price': Decimal}] *)
Record CartLine : Type := mkCartLine {
  line_product_id : Z;
  line_quantity : Q;
  line_price : Q
}.

Record CustomerData : Type := mkCustomerData {
  cust_name : option string;
  cust_phone : option string;
  cust_notes : option string
}.

(** [customer_data.get(key) if customer_data else None] *)
Definition customer_get (f : CustomerData -> option string)
    (customer_data : option CustomerData) : option string :=
  match customer_data with
  | Some c => f c
  | None => None
  end.

(** The staged line dictionaries and stock instructions of a checkout. *)
Record CartItemData : Type := mkCartItemData {
  cid_shop_id : Z;
  cid_product_id : Z;
  cid_quantity : Q;
  cid_unit_price : Q;
  cid_total_price : Q
}.

Record StockUpdate : Type := mkStockUpdate {
  p_id : Z;
  new_stock : Q
}.

Record Staged : Type := mkStaged {
  subtotal : Q;
  total_cost : Q;
  cart_item_data : list CartItemData;
  stock_updates : list StockUpdate
}.

Record CheckoutResult : Type := mkCheckoutResult {
  res_success : bool;
  res_sale_id : Z;
  res_payment_mode : string;
  res_status : SaleStatus;
  res_is_paid : bool;
  res_amount_paid : Q;
  res_receipt_pending : bool;
  res_customer_name : option string
}.

Record CompletionResult : Type := mkCompletionResult {
  cres_success : bool;
  cres_sale_id : Z;
  cres_status : SaleStatus;
  cres_is_paid : bool;
  cres_amount_paid : Q
}.

(** *** Repositories and entity queries *)

Section Repository.

(** The monetary columns of a new [Sale] row are filled in by
    [SaleRepository.create_sale], which is handed the staged lines but none
    of the totals computed by the checkout; how it prices a sale is left
    open here. *)
Variable sale_total_of : Z -> list CartItemData -> Q.

(** Modelled from the spec: [ProductRepository.get_bulk_for_sale] is not
    among the sources; "bulk-load the referenced products scoped to the
    shop".  The rows come with their primary keys. *)
Definition get_bulk_for_sale (db : Database) (product_ids : list Z) (shop_id : Z)
    : list (Z * Product) :=
  map_to_list
    (filter (λ kp : Z * Product, kp.1 ∈ product_ids ∧ product_shop_id kp.2 = shop_id)
       (products db)).

(** Lines 138-139: [products = ProductRepository.get_bulk_for_sale(...)]
    and [product_map = {p.id: p for p in products}]. *)
Definition product_map_of (db : Database) (product_ids : list Z) (shop_id : Z)
    : gmap Z Product :=
  list_to_map (get_bulk_for_sale db product_ids shop_id).

(** Modelled from the spec: [Tax.get_tax_rate] is not among the sources; "a
    shop has at most one active, non-deleted tax record" (first match wins),
    and the rate is 0 when there is none, as in [TaxService.get_tax_rate]. *)
Definition Tax_get_tax_rate (db : Database) (shop_id : Z) : Q :=
  match
    List.find (λ t, bool_decide (tax_shop_id t = shop_id) && tax_is_active t
                    && negb (tax_is_deleted t)) (taxes db)
  with
  | Some tax => tax_rate tax
  | None => 0
  end.

Definition next_sale_id (db : Database) : Z :=
  (1 + foldr Z.max 0 (sale_id <$> sales db))%Z.

Definition new_cart_item (sid : Z) (d : CartItemData) : CartItem :=
  mkCartItem sid (cid_shop_id d) (cid_product_id d) (cid_quantity d)
    (cid_unit_price d) (cid_total_price d).

(** Modelled from the spec: [SaleRepository.create_sale] is not among the
    sources; "persist the Sale and its CartItem lines in one transaction
    (create sale with staged lines, payment mode/method, customer
    name/phone/notes)", with "pay_now ⇒ status COMPLETED, is_paid = true;
    pay_later ⇒ status PENDING, is_paid = false".  The rows are added to the
    session; nothing is committed here. *)
Definition SaleRepository_create_sale (shop_id user_id : Z)
    (cart_items_arg : list CartItemData) (payment_mode : string)
    (payment_method customer_name customer_phone notes : option string) : M Sale := λ s,
  let db := working s in
  let paid := bool_decide (payment_mode = "pay_now") in
  let sale :=
    mkSale (next_sale_id db) shop_id user_id (clock s)
      (sale_total_of shop_id cart_items_arg)
      payment_mode payment_method customer_name customer_phone notes
      (if paid then COMPLETED else PENDING) paid in
  (Ok sale,
   set_working
     (mkDatabase (products db) (taxes db) (sales db ++ [sale])
        (cart_items db ++ (new_cart_item (sale_id sale) <$> cart_items_arg))) s).

(** [db.session.execute(Product.__table__.update()
        .where(Product.id == bindparam('p_id'))
        .values(stock=bindparam('new_stock')), stock_updates)]:
    one UPDATE per parameter set, in list order. *)
Definition apply_stock_update (m : gmap Z Product) (u : StockUpdate) : gmap Z Product :=
  alter (set_stock (new_stock u)) (p_id u) m.

Definition execute_stock_updates (updates : list StockUpdate) : M unit :=
  modify (λ s,
    set_working (set_products (foldl apply_stock_update (products (working s)) updates)
                   (working s)) s).

(** *** [SalesService.process_checkout] *)

(** Lines 97-116: payment mode and method consistency.  Returns the method
    as rebound by the pay_later branch. *)
Definition check_payment_fields (payment_mode : string)
    (payment_method : option string) (customer_data : option CustomerData)
    : result (option string) :=
  if bool_decide (payment_mode = "pay_now") then
    raise_if (negb (bool_decide (payment_method ∈ [Some "cash"; Some "mobile"])))
      (ValueError ("Invalid payment method '" +:+ str_opt payment_method
                   +:+ "' for pay_now mode")) ;;
    Ok payment_method
  else if bool_decide (payment_mode = "pay_later") then
    raise_if (truthy payment_method
              && negb (bool_decide (payment_method = Some "pay_on_delivery")))
      (ValueError ("Invalid payment method '" +:+ str_opt payment_method
                   +:+ "' for pay_later mode")) ;;
    let payment_method := Some "pay_on_delivery" in
    raise_if (negb (truthy (customer_get cust_name customer_data)))
      (ValueError "Customer name is required for pay_later sales") ;;
    Ok payment_method
  else
    Raise (ValueError "Invalid payment mode. Use 'pay_now' or 'pay_later'").

(** Lines 118-134: cart normalization; a [KeyError] and any other exception
    are re-raised as [ValueError]s. *)
Definition read_field {A} (key : string) (v : raw A) : result A :=
  match v with
  | Val a => Ok a
  | Missing => Raise (KeyError key)
  | Malformed e => Raise e
  end.

Definition normalize_item (item : RawCartItem) : result CartLine :=
  product_id ← read_field "product_id" (raw_product_id item) ;
  quantity ← read_field "quantity" (raw_quantity item) ;
  price ← read_field "price" (raw_price item) ;
  Ok (mkCartLine product_id quantity price).

Definition normalize_cart (cart_items_arg : list RawCartItem) : result (list CartLine) :=
  match mapM normalize_item cart_items_arg with
  | Ok lines => Ok lines
  | Raise (KeyError k) =>
      Raise (ValueError ("Missing required field in cart items: " +:+ exn_str (KeyError k)))
  | Raise e =>
      Raise (ValueError ("Error processing cart items: " +:+ exn_str e))
  end.

(** Lines 151-190: one iteration of the loop over the normalized cart.
    [product_map] is built once before the loop and [product.stock] is only
    read, never written, inside it. *)
Definition stage_line (shop_id : Z) (payment_mode : string)
    (product_map : gmap Z Product) (acc : Staged) (item : CartLine) : result Staged :=
  match product_map !! line_product_id item with
  | None =>
      Raise (ValueError ("Product " +:+ pretty (line_product_id item) +:+ " not found"))
  | Some product =>
      let quantity := line_quantity item in
      raise_if (bool_decide (payment_mode = "pay_now")
                && negb (Qle_bool quantity (product_stock product)))
        (ValueError ("Insufficient stock for '" +:+ product_name product +:+ "'")) ;;
      let unit_price := line_price item in
      let item_subtotal := round_up_to_nearest_five (quantity * unit_price) in
      let cost_price := product_cost_price product in
      let item_cost := quantity * cost_price in
      Ok (mkStaged
            (subtotal acc + item_subtotal)
            (total_cost acc + item_cost)
            (cart_item_data acc ++
               [mkCartItemData shop_id (line_product_id item) quantity unit_price
                  item_subtotal])
            (if bool_decide (payment_mode = "pay_now")
             then stock_updates acc ++
                    [mkStockUpdate (line_product_id item)
                       (product_stock product - quantity)]
             else stock_updates acc))
  end.

Fixpoint stage_lines (shop_id : Z) (payment_mode : string)
    (product_map : gmap Z Product) (cart : list CartLine) (acc : Staged)
    : result Staged :=
  match cart with
  | [] => Ok acc
  | item :: rest =>
      acc' ← stage_line shop_id payment_mode product_map acc item ;
      stage_lines shop_id payment_mode product_map rest acc'
  end.

Definition empty_staged : Staged := mkStaged 0 0 [] [].

(** Lines 192-194. *)
Record Totals : Type := mkTotals {
  tax_amount : Q;
  total : Q;
  profit : Q
}.

Definition checkout_totals (staged : Staged) (tax_rate : Q) : Totals :=
  let tax_amount := Decimal.quantize_cents (subtotal staged * tax_rate) in
  let total := subtotal staged + tax_amount in
  let profit := subtotal staged - total_cost staged in
  mkTotals tax_amount total profit.

(** Lines 198-204. *)
Definition sale_status_of (payment_mode : string) : SaleStatus * bool :=
  if bool_decide (payment_mode = "pay_now") then (COMPLETED, true) else (PENDING, false).

(** Lines 137-250: the body of the [try] block. *)
Definition checkout_transaction (shop_id user_id : Z) (cart : list CartLine)
    (payment_mode : string) (payment_method : option string)
    (customer_data : option CustomerData) : M CheckoutResult :=
  let product_ids := line_product_id <$> cart in
  product_map ← gets (λ s, product_map_of (working s) product_ids shop_id) ;
  tax_rate ← gets (λ s, Tax_get_tax_rate (working s) shop_id) ;
  staged ← lift (stage_lines shop_id payment_mode product_map cart empty_staged) ;
  let totals := checkout_totals staged tax_rate in
  let '(sale_status_, is_paid) := sale_status_of payment_mode in
  sale ← SaleRepository_create_sale shop_id user_id (cart_item_data staged)
           payment_mode payment_method
           (customer_get cust_name customer_data)
           (customer_get cust_phone customer_data)
           (customer_get cust_notes customer_data) ;
  (match stock_updates staged with
   | [] => mret ()
   | _ :: _ => execute_stock_updates (stock_updates staged)
   end) ;;
  db_session_commit ;;
  (if bool_decide (payment_mode = "pay_now")
   then start_thread (mkTask (sale_id sale) shop_id user_id (total totals) (length cart))
   else mret ()) ;;
  mret (mkCheckoutResult true (sale_id sale) payment_mode sale_status_ is_paid
          (if is_paid then total totals else 0) is_paid
          (customer_get cust_name customer_data)).

Definition process_checkout (shop_id user_id : Z) (cart_items_arg : list RawCartItem)
    (payment_mode : string) (payment_method : option string)
    (customer_data : option CustomerData) : M CheckoutResult :=
  match cart_items_arg with
  | [] => raise (ValueError "Cannot process empty sale")
  | _ :: _ =>
      payment_method ← lift (check_payment_fields payment_mode payment_method customer_data) ;
      cart ← lift (normalize_cart cart_items_arg) ;
      try_except
        (checkout_transaction shop_id user_id cart payment_mode payment_method customer_data)
        (λ e, db_session_rollback ;;
              raise (ValueError ("Checkout processing failed: " +:+ exn_str e)))
  end.

(** *** [SalesService.complete_pay_later_sale] *)

(** Modelled from the spec: [SaleRepository.get_sale_with_items] is not among
    the sources; "load the sale scoped to the shop", with its line items. *)
Definition get_sale_with_items (db : Database) (sid shop_id : Z)
    : option (Sale * list CartItem) :=
  match List.find (λ r, bool_decide (sale_id r = sid) && bool_decide (sale_shop_id r = shop_id))
          (sales db) with
  | Some sale =>
      Some (sale, List.filter (λ i, bool_decide (item_sale_id i = sale_id sale)) (cart_items db))
  | None => None
  end.

Definition mark_paid (payment_method : option string) (r : Sale) : Sale :=
  mkSale (sale_id r) (sale_shop_id r) (sale_user_id r) (sale_date r) (sale_total r)
    (sale_payment_mode r) payment_method (sale_customer_name r)
    (sale_customer_phone r) (sale_notes r) COMPLETED true.

(** Modelled from the spec: [SaleRepository.update_sale_payment_status] is not
    among the sources; "mark the sale paid, set status accordingly".  The row
    it returns is the one whose [payment_method] the caller then overwrites
    (line 286); both writes are folded into [mark_paid]. *)
Definition update_sale_payment_status (sid shop_id : Z)
    (payment_method : option string) : M (option Sale) := λ s,
  let db := working s in
  let hit r := bool_decide (sale_id r = sid) && bool_decide (sale_shop_id r = shop_id) in
  (Ok (mark_paid payment_method <$> List.find hit (sales db)),
   set_working
     (mkDatabase (products db) (taxes db)
        ((λ r, if hit r then mark_paid payment_method r else r) <$> sales db)
        (cart_items db)) s).

(** Lines 277-282: one iteration of the loop over [sale.cart_items].
    [cart_item.product] is the session's object for that row, so a later
    line for the same product sees the stock left by an earlier one. *)
Definition deduct_item (cart_item : CartItem) : M unit := λ s,
  match products (working s) !! item_product_id cart_item with
  | None => (Raise (AttributeError "'NoneType' object has no attribute 'stock'"), s)
  | Some product =>
      if negb (Qle_bool (item_quantity cart_item) (product_stock product))
      then (Raise (ValueError ("Insufficient stock for '" +:+ product_name product +:+ "'")), s)
      else (Ok (),
            set_working
              (set_products
                 (<[item_product_id cart_item :=
                      set_stock (product_stock product - item_quantity cart_item) product]>
                    (products (working s)))
                 (working s)) s)
  end.

Fixpoint deduct_items (items : list CartItem) : M unit :=
  match items with
  | [] => mret ()
  | cart_item :: rest => deduct_item cart_item ;; deduct_items rest
  end.

Definition completion_transaction (sid shop_id : Z) (payment_method : string)
    (items : list CartItem) : M CompletionResult :=
  deduct_items items ;;
  updated ← update_sale_payment_status sid shop_id (Some payment_method) ;
  match updated with
  | None => raise (AttributeError "'NoneType' object has no attribute 'payment_method'")
  | Some sale =>
      db_session_commit ;;
      start_thread (mkTask (sale_id sale) shop_id (sale_user_id sale) (sale_total sale)
                      (length items)) ;;
      mret (mkCompletionResult true (sale_id sale) (sale_status sale) (sale_is_paid sale)
              (sale_total sale))
  end.

Definition complete_pay_later_sale (sid shop_id : Z) (payment_method : string)
    : M CompletionResult :=
  if negb (bool_decide (payment_method ∈ ["cash"; "mobile"])) then
    raise (ValueError "Payment method must be 'cash' or 'mobile'")
  else
    found ← gets (λ s, get_sale_with_items (working s) sid shop_id) ;
    match found with
    | None => raise (ValueError "Sale not found")
    | Some (sale, items) =>
        if sale_is_paid sale then raise (ValueError "Sale is already paid")
        else if negb (bool_decide (sale_payment_method sale = Some "pay_on_delivery"))
        then raise (ValueError "This sale is not a pay_later sale")
        else
          try_except (completion_transaction sid shop_id payment_method items)
            (λ e, db_session_rollback ;;
                  raise (ValueError ("Failed to complete sale: " +:+ exn_str e)))
    end.

(** *** Vocabulary for the statements about checkout *)

(** The sum of the per-line subtotals, each rounded up to a multiple of 5,
    and the sum of the unrounded per-line costs. *)
Definition sum_subtotals (cart : list CartLine) : Q :=
  foldr Qplus 0 ((λ l, round_up_to_nearest_five (line_quantity l * line_price l)) <$> cart).

Definition sum_costs (product_map : gmap Z Product) (cart : list CartLine) : Q :=
  foldr Qplus 0
    ((λ l, match product_map !! line_product_id l with
           | Some p => line_quantity l * product_cost_price p
           | None => 0
           end) <$> cart).

(** The lines of a cart that name the product [pid], in cart order. *)
Definition lines_of (pid : Z) (cart : list CartLine) : list CartLine :=
  List.filter (λ l, bool_decide (line_product_id l = pid)) cart.

(** The summed quantity a cart asks of the product [pid]. *)
Definition requested (pid : Z) (cart : list CartLine) : Q :=
  foldr Qplus 0 (line_quantity <$> lines_of pid cart).

(** The line items of a sale that name the product [pid], and their summed
    quantity. *)
Definition items_of (pid : Z) (items : list CartItem) : list CartItem :=
  List.filter (λ i, bool_decide (item_product_id i = pid)) items.

Definition deducted (pid : Z) (items : list CartItem) : Q :=
  foldr Qplus 0 (item_quantity <$> items_of pid items).

(** The stock of the product [pid], when the row exists. *)
Definition stock_of (db : Database) (pid : Z) : option Q :=
  product_stock <$> products db !! pid.

(** The per-line check, as a predicate: the product is in the map and, for
    pay_now, this line's quantity alone does not exceed the product's stock
    as loaded before the loop. *)
Definition line_passes (mode : string) (pm : gmap Z Product) (item : CartLine) : Prop :=
  exists p, pm !! line_product_id item = Some p
            /\ (mode = "pay_now" -> line_quantity item <= product_stock p).

Definition staged_update (pm : gmap Z Product) (item : CartLine) : StockUpdate :=
  mkStockUpdate (line_product_id item)
    (match pm !! line_product_id item with
     | Some p => product_stock p - line_quantity item
     | None => 0
     end).

(** The row a checkout adds, and the tables it commits. *)
Definition created_sale (s : State) (shop user : Z) (staged : Staged) (mode : string)
    (method : option string) (cd : option CustomerData) : Sale :=
  mkSale (next_sale_id (working s)) shop user (clock s)
    (sale_total_of shop (cart_item_data staged)) mode method
    (customer_get cust_name cd) (customer_get cust_phone cd) (customer_get cust_notes cd)
    (if bool_decide (mode = "pay_now") then COMPLETED else PENDING)
    (bool_decide (mode = "pay_now")).

Definition committed_checkout (s : State) (staged : Staged) (sale : Sale) : Database :=
  mkDatabase
    (foldl apply_stock_update (products (working s)) (stock_updates staged))
    (taxes (working s))
    (sales (working s) ++ [sale])
    (cart_items (working s) ++ (new_cart_item (sale_id sale) <$> cart_item_data staged)).

End Repository.

(** *** [SalesService.get_daily_sales_summary] *)

(** The names bound at module level in [services.py]: lines 1-18 (imports),
    the logger, the module-level function and the service classes. *)
Definition module_globals : list string :=
  [ "current_user"; "datetime"; "Decimal"; "ROUND_UP"; "List"; "Dict"; "Optional";
    "request"; "session"; "db"; "socketio";
    "ProductRepository"; "CategoryRepository"; "SaleRepository";
    "Shop"; "Sale"; "CartItem"; "Category"; "Product"; "Tax"; "SaleStatus";
    "bindparam"; "PricingUtil"; "threading"; "joinedload"; "with_loader_criteria";
    "get_kenya_today_range"; "and_"; "func"; "case"; "logging"; "traceback";
    "lru_cache"; "logger"; "run_checkout_tasks";
    "SalesService"; "ReceiptService"; "ProductService"; "CategoryService";
    "PaymentService"; "TaxService" ].

(** Evaluating a global name that no import or definition binds. *)
Definition load_global (name : string) : result unit :=
  raise_if (negb (bool_decide (name ∈ module_globals))) (NameError name).

Record DayRow : Type := mkDayRow {
  day : Z;
  day_count : nat;
  day_total : Q
}.

Record ModeRow : Type := mkModeRow {
  mode_is_paid : bool;
  mode_count : nat;
  mode_total : Q
}.

Record Summary : Type := mkSummary {
  daily_summary : list DayRow;
  pay_now_total : Q;
  pay_now_count : nat;
  pay_later_total : Q;
  pay_later_count : nat
}.

Definition seconds_per_day : Z := 86400.

(** [func.date(Sale.date)], with timestamps counted in seconds. *)
Definition date_of (r : Sale) : Z := (sale_date r / seconds_per_day)%Z.

Definition sum_totals (rows : list Sale) : Q := foldr Qplus 0 (sale_total <$> rows).

(** Lines 356-367: count and sum per day, newest day first. *)
Definition daily_query (rows : list Sale) : list DayRow :=
  (λ d, let group := List.filter (λ r, bool_decide (date_of r = d)) rows in
        mkDayRow d (length group) (sum_totals group))
  <$> merge_sort Z.ge (remove_dups (date_of <$> rows)).

(** Lines 370-380: count and sum per value of [is_paid]. *)
Definition mode_query (rows : list Sale) : list ModeRow :=
  omap (λ b, let group := List.filter (λ r, bool_decide (sale_is_paid r = b)) rows in
             match group with
             | [] => None
             | _ :: _ => Some (mkModeRow b (length group) (sum_totals group))
             end)
    [true; false].

(** Lines 355-406: the two queries and the assembly of the answer, for a
    given [date_threshold]. *)
Definition summary_since (db : Database) (date_threshold : Z) (shop_id : Z) : Summary :=
  let rows :=
    List.filter (λ r, bool_decide (sale_shop_id r = shop_id)
                      && bool_decide (date_threshold <= sale_date r)%Z) (sales db) in
  let result_ := daily_query rows in
  let mode_breakdown := mode_query rows in
  let pay_now_total :=
    foldl (λ acc b, if mode_is_paid b then mode_total b else acc) 0 mode_breakdown in
  let pay_later_total :=
    foldl (λ acc b, if mode_is_paid b then acc else mode_total b) 0 mode_breakdown in
  mkSummary result_
    pay_now_total
    (sum_list (mode_count <$> List.filter mode_is_paid mode_breakdown))
    pay_later_total
    (sum_list (mode_count <$> List.filter (λ b, negb (mode_is_paid b)) mode_breakdown)).

(** Line 353 evaluates [datetime.utcnow() - timedelta(days=days)]: the
    global [datetime] and then the global [timedelta] are looked up before
    any query is built. *)
Definition get_daily_sales_summary (db : Database) (now : Z) (shop_id : Z) (days : Z)
    : result Summary :=
  load_global "datetime" ;;
  load_global "timedelta" ;;
  let date_threshold := (now - days * seconds_per_day)%Z in
  Ok (summary_since db date_threshold shop_id).

(** The default of the [days] parameter. *)
Definition default_days : Z := 7.

(** *** [TaxService.get_tax_rate] under [functools.lru_cache(maxsize=32)] *)

Definition maxsize : nat := 32.

(** The undecorated body (line 615-616). *)
Definition get_tax_rate_body (db : Database) (shop_id : Z) : Q :=
  match
    List.find (λ t, bool_decide (tax_shop_id t = shop_id) && tax_is_active t
                    && negb (tax_is_deleted t)) (taxes db)
  with
  | Some tax => tax_rate tax
  | None => 0
  end.

(** The cache of the decorated function, most recently used entry first.
    A hit moves the entry to the front; a miss calls the body, puts the
    result in front and, when the cache was full, drops the entry at the
    back. *)
Definition TaxCache : Type := list (Z * Q).

Definition cache_keys (c : TaxCache) : list Z := fst <$> c.

Definition cache_find (shop_id : Z) (c : TaxCache) : option Q :=
  snd <$> List.find (λ e, bool_decide (e.1 = shop_id)) c.

Definition cache_remove (shop_id : Z) (c : TaxCache) : TaxCache :=
  List.filter (λ e, negb (bool_decide (e.1 = shop_id))) c.

Definition get_tax_rate (db : Database) (c : TaxCache) (shop_id : Z) : Q * TaxCache :=
  match cache_find shop_id c with
  | Some rate => (rate, (shop_id, rate) :: cache_remove shop_id c)
  | None =>
      let rate := get_tax_rate_body db shop_id in
      (rate, take maxsize ((shop_id, rate) :: c))
  end.

(** The cache after a sequence of calls, each against the database of its
    moment, starting from the cache [c]. *)
Definition run_lookups (calls : list (Database * Z)) (c : TaxCache) : TaxCache :=
  foldl (λ c call, (get_tax_rate call.1 c call.2).2) c calls.

(** Shop ids in order of last access, most recent first. *)
Definition recency (ids : list Z) : list Z :=
  foldl (λ acc k, k :: List.filter (λ j, negb (bool_decide (j = k))) acc) [] ids.

End Services.

(** ** Landing routes ([app/home/routes.py]): shop resolution *)

Module Routes.

(** Modelled from the spec: the [Shop] and [ShopHomepageSettings] classes of
    [app/models] are not among the sources; the records have the columns
    that [get_shop_from_request] reads.
    [ShopHomepageSettings] is one-to-one with its [Shop]; the settings row
    is kept with the shop it belongs to, so [homepage_settings.shop] and
    [shop.shop_homepage_settings] are the two directions of one link.  A
    query over the settings table reads the shops in table order. *)
Record ShopHomepageSettings : Type := mkSettings {
  custom_domain : option string;
  subdomain : option string;
  is_active : bool
}.

Record Shop : Type := mkShop {
  shop_id : Z;
  slug : string;
  shop_is_active : bool;
  shop_homepage_settings : option ShopHomepageSettings
}.

(** What [get_shop_from_request] reads of the request. *)
Record Request : Type := mkRequest {
  header_Host : option string;
  arg_shop_id : option string;
  arg_shop_slug : option string
}.

(** ['.' in host] *)
Fixpoint contains_dot (host : string) : bool :=
  match host with
  | EmptyString => false
  | String c rest => if Ascii.eqb c "."%char then true else contains_dot rest
  end.

(** [host.split('.')[0]] *)
Fixpoint first_label (host : string) : string :=
  match host with
  | EmptyString => EmptyString
  | String c rest => if Ascii.eqb c "."%char then EmptyString else String c (first_label rest)
  end.

Definition reserved_labels : list string := ["www"; "app"; "admin"; "api"].

(** [ShopHomepageSettings.query.filter_by(custom_domain=host, is_active=True).first()]
    followed by [.shop] *)
Definition by_custom_domain (shops : list Shop) (host : string) : option Shop :=
  List.find (λ shop,
    match shop_homepage_settings shop with
    | Some hs => bool_decide (custom_domain hs = Some host) && is_active hs
    | None => false
    end) shops.

(** [ShopHomepageSettings.query.filter_by(subdomain=subdomain, is_active=True).first()]
    followed by [.shop] *)
Definition by_subdomain (shops : list Shop) (label : string) : option Shop :=
  List.find (λ shop,
    match shop_homepage_settings shop with
    | Some hs => bool_decide (subdomain hs = Some label) && is_active hs
    | None => false
    end) shops.

(** The integer a query-string value denotes as a primary key: a non-empty
    string of decimal digits.  Any other value is taken to name no row; what
    the database does with it is outside the model. *)
Definition digit_of (c : Ascii.ascii) : option Z :=
  let n := Z.of_nat (Ascii.nat_of_ascii c) in
  if bool_decide (48 <= n <= 57)%Z then Some (n - 48)%Z else None.

Fixpoint parse_digits (acc : Z) (s : string) : option Z :=
  match s with
  | EmptyString => Some acc
  | String c rest =>
      match digit_of c with
      | Some d => parse_digits (10 * acc + d)%Z rest
      | None => None
      end
  end.

Definition primary_key_of (s : string) : option Z :=
  match s with
  | EmptyString => None
  | _ => parse_digits 0 s
  end.

(** [Shop.query.get(shop_id)] *)
Definition Shop_query_get (shops : list Shop) (ident : string) : option Shop :=
  match primary_key_of ident with
  | Some k => List.find (λ shop, bool_decide (shop_id shop = k)) shops
  | None => None
  end.

(** [Shop.query.filter_by(slug=shop_slug, is_active=True).first()] *)
Definition by_slug (shops : list Shop) (shop_slug : string) : option Shop :=
  List.find (λ shop, bool_decide (slug shop = shop_slug) && shop_is_active shop) shops.

(** [shop.shop_homepage_settings and shop.shop_homepage_settings.is_active] *)
Definition has_active_settings (shop : Shop) : bool :=
  match shop_homepage_settings shop with
  | Some hs => is_active hs
  | None => false
  end.

(** Lines 39-48, the subdomain source. *)
Definition subdomain_source (shops : list Shop) (host : string) : option Shop :=
  if contains_dot host then
    let label := first_label host in
    if negb (bool_decide (label ∈ reserved_labels))
    then by_subdomain shops label
    else None
  else None.

(** Lines 50-55, the [shop_id] parameter source. *)
Definition shop_id_source (shops : list Shop) (request : Request) : option Shop :=
  if truthy (arg_shop_id request) then
    match Shop_query_get shops (default "" (arg_shop_id request)) with
    | Some shop => if has_active_settings shop then Some shop else None
    | None => None
    end
  else None.

(** Lines 57-62, the [shop_slug] parameter source. *)
Definition shop_slug_source (shops : list Shop) (request : Request) : option Shop :=
  if truthy (arg_shop_slug request)
  then by_slug shops (default "" (arg_shop_slug request))
  else None.

Definition get_shop_from_request (shops : list Shop) (request : Request) : option Shop :=
  let host := default "" (header_Host request) in
  match by_custom_domain shops host with
  | Some shop => Some shop
  | None =>
      match subdomain_source shops host with
      | Some shop => Some shop
      | None =>
          match shop_id_source shops request with
          | Some shop => Some shop
          | None =>
              match shop_slug_source shops request with
              | Some shop => Some shop
              | None => None
              end
          end
      end
  end.

(** *** The resolution order in the words of the specification *)







End Routes.

(** ** Sample data for the worked examples *)

Module Sample.
Import Services.
Local Open Scope Q_scope.

(** A repository that prices every sale at zero; the examples do not read
    the monetary columns of a sale. *)
Definition flat_pricing : Z -> list CartItemData -> Q := λ _ _, 0.

(** Shop 1 sells sugar (product 1, ten in stock, cost 60) and taxes at 16%. *)
Definition sugar : Product := mkProduct 1 "Sugar" 10 60.

Definition db0 : Database :=
  mkDatabase {[ 1%Z := sugar ]} [mkTax 1 (16 # 100) true false] [] [].

Definition s0 : State := mkState db0 db0 [] 0.

Definition cart_line (pid : Z) (quantity price : Q) : RawCartItem :=
  mkRawCartItem (Val pid) (Val quantity) (Val price).

(** One line of sugar. *)
Definition cart_single : list RawCartItem := [cart_line 1 3 100].

(** Sugar twice, 3 and then 4: seven in all. *)
Definition cart_twice : list RawCartItem := [cart_line 1 3 100; cart_line 1 4 100].

(** Sugar twice, 6 and then 6: twelve in all, more than the ten in stock. *)
Definition cart_over : list RawCartItem := [cart_line 1 6 100; cart_line 1 6 100].

(** A valid product followed by one the shop does not have. *)
Definition cart_unknown : list RawCartItem := [cart_line 1 3 100; cart_line 2 1 50].

Definition amina : option CustomerData :=
  Some (mkCustomerData (Some "Amina") (Some "0700000000") None).

(** Three sales of shop 1 on two days (day 0 and day 1), one of them unpaid,
    and a sale of another shop. *)
Definition sale_row (sid shop date : Z) (total : Q) (paid : bool) : Sale :=
  mkSale sid shop 7 date total (if paid then "pay_now" else "pay_later")
    (Some (if paid then "cash" else "pay_on_delivery")) None None None
    (if paid then COMPLETED else PENDING) paid.

Definition db_sales : Database :=
  mkDatabase ∅ []
    [ sale_row 1 1 100 116 true; sale_row 2 1 200 58 false;
      sale_row 3 1 86500 348 true; sale_row 4 2 86500 999 true ] [].

(** Two shops: the first owns the custom domain [duka.example], the second
    is reachable by the slug [shop1] and has active homepage settings of
    its own. *)
Definition shop_a : Routes.Shop :=
  Routes.mkShop 1 "duka" true
    (Some (Routes.mkSettings (Some "duka.example") (Some "duka") true)).

Definition shop_b : Routes.Shop :=
  Routes.mkShop 2 "shop1" true
    (Some (Routes.mkSettings None (Some "other") true)).

Definition shops0 : list Routes.Shop := [shop_a; shop_b].

(** The host is shop A's custom domain while [shop_id] names shop B. *)
Definition request_domain_and_id : Routes.Request :=
  Routes.mkRequest (Some "duka.example") (Some "2") None.

(** No settings row matches the host [shop1.example.com]; the slug is given. *)
Definition request_slug : Routes.Request :=
  Routes.mkRequest (Some "shop1.example.com") None (Some "shop1").

(** A reserved label that a settings row nevertheless claims. *)
Definition shop_www : Routes.Shop :=
  Routes.mkShop 3 "www-shop" true
    (Some (Routes.mkSettings None (Some "www") true)).

Definition request_www : Routes.Request :=
  Routes.mkRequest (Some "www.example.com") None None.

End Sample.

(** ** Vocabulary for the statements about completion *)

Module Completion.
Import Services.

(** The test by which [get_sale_with_items] and
    [update_sale_payment_status] pick their sale. *)
Definition is_sale (sid shop : Z) (row : Sale) : bool :=
  bool_decide (sale_id row = sid) && bool_decide (sale_shop_id row = shop).

(** Every line item belongs to a sale that exists (the foreign key of
    [CartItem.sale_id]). *)
Definition items_reference_sales (db : Database) : Prop :=
  Forall (λ i, exists row, row ∈ sales db /\ sale_id row = item_sale_id i) (cart_items db).

End Completion.

(** ** Deferred sales for the worked examples *)

Module Scenario.
Import Services Sample.

(** The state after Amina takes sugar twice (3 and 4) on pay-later terms. *)
Definition s_deferred : State :=
  (process_checkout flat_pricing 1 7 cart_twice "pay_later" None amina s0).2.

(** The state after the same customer takes 6 and 6 on pay-later terms: twelve in all,
    against ten in stock. *)
Definition s_overdrawn : State :=
  (process_checkout flat_pricing 1 7 cart_over "pay_later" None amina s0).2.

End Scenario.

(** ** More of the validation schemas ([app/sale/schemas.py]) *)

Module SaleRecord.
Import Schemas Services.
Local Open Scope Q_scope.

(** A double quote, for the messages that carry one. *)
Definition dq : string := String (Ascii.ascii_of_nat 34) EmptyString.

(** [validate_quantity] *)
Definition validate_quantity (value : Q) : result unit :=
  raise_if (Qle_bool value 0) (ValidationError "Quantity must be greater than zero.") ;;
  raise_if (negb (Qle_bool value 999))
    (ValidationError "Quantity exceeds maximum allowed (999).").

(** [validate.Range(min=m)] *)
Definition Range_min_Z (m : Z) (v : Z) : result unit :=
  raise_if (negb (bool_decide (m <= v)%Z))
    (ValidationError ("Must be greater than or equal to " +:+ pretty m +:+ ".")).

Definition Range_min_0 (v : Q) : result unit :=
  raise_if (negb (Qle_bool 0 v)) (ValidationError "Must be greater than or equal to 0.").

(** A required field: a missing key and a value of the wrong type are both
    refused before the field's validator runs. *)
Definition required {A} (type_error : string) (v : raw A) : result A :=
  match v with
  | Val a => Ok a
  | Missing => Raise (ValidationError "Missing data for required field.")
  | Malformed _ => Raise (ValidationError type_error)
  end.

(** [CartItemSchema().load(item)]: [product_id] an integer at least 1,
    [quantity] a number passing [validate_quantity], [price] a number at
    least 0, all three required.  (marshmallow reports every failing field
    at once; the first one is kept here.) *)
Definition CartItemSchema_load (item : RawCartItem) : result CartLine :=
  product_id ← required "Not a valid integer." (raw_product_id item) ;
  Range_min_Z 1 product_id ;;
  quantity ← required "Not a valid number." (raw_quantity item) ;
  validate_quantity quantity ;;
  price ← required "Not a valid number." (raw_price item) ;
  Range_min_0 price ;;
  Ok (mkCartLine product_id quantity price).

(** [SaleSchema.validate_payment_method_based_on_mode], a [validates]
    hook on [payment_method]; the mode is read from the schema's context. *)
Definition validate_payment_method_based_on_mode (context_mode : option string)
    (value : string) : result unit :=
  if bool_decide (context_mode = Some "pay_now") then
    raise_if (negb (bool_decide (value ∈ ["cash"; "mobile"])))
      (ValidationError ("For pay_now mode, payment method must be either " +:+ dq
                        +:+ "cash" +:+ dq +:+ " or " +:+ dq +:+ "mobile" +:+ dq))
  else if bool_decide (context_mode = Some "pay_later") then
    raise_if (negb (bool_decide (value = "pay_on_delivery")))
      (ValidationError ("For pay_later mode, payment method must be " +:+ dq
                        +:+ "pay_on_delivery" +:+ dq))
  else Ok ().

(** [SaleSchema.validate_customer_name], a [validates] hook on
    [customer_name]. *)
Definition validate_customer_name (context_mode : option string)
    (value : option string) : result unit :=
  raise_if (bool_decide (context_mode = Some "pay_later") && negb (truthy value))
    (ValidationError ("Customer name is required when payment_mode is " +:+ dq
                      +:+ "pay_later" +:+ dq)).

(** [SaleSchema.validate_payment_flow], a [validates_schema] hook; its
    errors are keyed by field. *)
Definition validate_payment_flow (data : CheckoutData) : result unit :=
  let payment_mode := payment_mode data in
  let payment_method := payment_method data in
  let customer_name := customer_name data in
  if bool_decide (payment_mode = Some "pay_now") then
    raise_if (negb (bool_decide (payment_method ∈ [Some "cash"; Some "mobile"])))
      (ValidationError
         "{'payment_method': ['For pay_now mode, payment method must be either cash or mobile']}")
  else if bool_decide (payment_mode = Some "pay_later") then
    raise_if (negb (bool_decide (payment_method = Some "pay_on_delivery")))
      (ValidationError
         "{'payment_method': ['For pay_later mode, payment method must be pay_on_delivery']}") ;;
    raise_if (negb (truthy customer_name))
      (ValidationError "{'customer_name': ['Customer name is required for pay_later mode']}")
  else Ok ().

(** Raw cart items with every field present and well typed. *)
Definition raw_of (l : CartLine) : RawCartItem :=
  mkRawCartItem (Val (line_product_id l)) (Val (line_quantity l)) (Val (line_price l)).

End SaleRecord.

(** ** Payment methods ([PaymentService]) *)

Module Payments.

Record PaymentMethod : Type := mkPaymentMethod {
  code : string;
  name : string;
  needs_confirmation : bool
}.

(** [PaymentService.get_available_methods]: the same list for every shop. *)
Definition get_available_methods (shop_id : Z) : list PaymentMethod :=
  [ mkPaymentMethod "cash" "Cash" false;
    mkPaymentMethod "card" "Card" true;
    mkPaymentMethod "transfer" "Bank Transfer" true ].

End Payments.

(** ** Read models of [SalesService] *)

Module ReadModels.
Import Services.

(** [Sale.date.desc()]: [a] may come before [b]. *)
Definition newest_first (a b : Sale) : Prop := (sale_date b <= sale_date a)%Z.

Global Instance newest_first_dec : RelDecision newest_first :=
  λ a b, decide (sale_date b <= sale_date a)%Z.

(** [SalesService.get_recent_transactions]: the shop's sales, newest first,
    cut at [limit].  (The database is free in how it orders equal dates;
    a merge sort stands for it.) *)
Definition get_recent_transactions (db : Database) (shop_id : Z) (limit : nat) : list Sale :=
  take limit
    (merge_sort newest_first
       (List.filter (λ r, bool_decide (sale_shop_id r = shop_id)) (sales db))).

(** The default of the [limit] parameter. *)
Definition default_limit : nat := 3.

End ReadModels.

(** ** Landing routes ([app/home/routes.py]): index and shop selection *)

Module Landing.
Import Routes.

(** Modelled from the spec: the [User] class of [app/models] is not among the
    sources; "has a role — super-admin, tenant-owner, admin, or cashier — plus
    optional business_id and shop_id".  [is_superadmin()], [is_tenant()],
    [is_admin()] and [is_cashier()] each hold of one role; a user of any other
    role answers no to all four. *)
Inductive Role : Type := SuperAdmin | TenantOwner | Admin | Cashier | OtherRole.

Global Instance Role_eq_dec : EqDecision Role.
Proof. solve_decision. Defined.

Record User : Type := mkUser {
  user_id : Z;
  role : Role;
  business_id : option Z;
  user_shop_id : option Z
}.

(** Modelled from the spec: the [Business] class is not among the sources;
    only its primary key is read. *)
Record Business : Type := mkBusiness {
  business_pk : Z
}.

(** A [Shop] row with the two further columns these routes read. *)
Record ShopRow : Type := mkShopRow {
  base : Shop;
  shop_name : string;
  shop_business_id : option Z
}.

(** Truthiness of an optional integer column: [None] and [0] are falsy. *)
Definition truthy_id (o : option Z) : bool :=
  match o with
  | Some k => negb (bool_decide (k = 0%Z))
  | None => false
  end.

(** [Shop.query.get(k)] and [Business.query.get(k)] *)
Definition Shop_get (shops : list ShopRow) (k : Z) : option ShopRow :=
  List.find (λ row, bool_decide (shop_id (base row) = k)) shops.

Definition Business_get (businesses : list Business) (k : Z) : option Business :=
  List.find (λ b, bool_decide (business_pk b = k)) businesses.

(** The template context built by [index]. *)
Record Context : Type := mkContext {
  current_shop : option ShopRow;
  business : option Business;
  is_super_admin : bool;
  create_business : bool;
  select_shop_flag : bool
}.

Definition default_context : Context := mkContext None None false false false.

Inductive Response : Type :=
| RenderCustomShop (current : Shop)
| RenderHome (context : Context)
| RedirectHome
| RedirectSalesScreen (shop : Z)
| RedirectShopHomepage (shop : Z)
| NotFound.

(** What a request can change: the logged-in user's row, the session's
    [shop_id], and the flashed messages with their categories. *)
Record Visit : Type := mkVisit {
  current_user : option User;
  session_shop_id : option Z;
  flashes : list (string * string)
}.

Definition flash (message category : string) (v : Visit) : Visit :=
  mkVisit (current_user v) (session_shop_id v) (flashes v ++ [(message, category)]).

(** [current_user.shop_id = k; db.session.commit()] *)
Definition set_user_shop (k : option Z) (v : Visit) : Visit :=
  mkVisit
    ((λ u, mkUser (user_id u) (role u) (business_id u) k) <$> current_user v)
    (session_shop_id v) (flashes v).

(** Lines 97-126: the tenant branch of [index]. *)
Definition tenant_context (shops : list ShopRow) (businesses : list Business)
    (u : User) (v : Visit) : Context * Visit :=
  if negb (truthy_id (business_id u)) then
    (mkContext None None false true false,
     flash "Please create a business to continue." "warning" v)
  else
    match Business_get businesses (default 0%Z (business_id u)) with
    | None =>
        (mkContext None None false true false,
         flash "Invalid business. Please create a new one." "error" v)
    | Some b =>
        if truthy_id (user_shop_id u) then
          match Shop_get shops (default 0%Z (user_shop_id u)) with
          | None =>
              (mkContext None (Some b) false false true,
               set_user_shop None
                 (flash "Invalid shop selected. Please choose a valid shop." "error" v))
          | Some row =>
              if negb (bool_decide (shop_business_id row = Some (business_pk b))) then
                (mkContext None (Some b) false false true,
                 set_user_shop None
                   (flash "Selected shop is not valid for your business. Please choose another."
                      "error" v))
              else (mkContext (Some row) (Some b) false false false, v)
          end
        else (mkContext None (Some b) false false false, v)
    end.

(** Lines 128-149: the admin and cashier branch of [index]. *)
Definition staff_context (shops : list ShopRow) (businesses : list Business)
    (u : User) (v : Visit) : Context * Visit :=
  if negb (truthy_id (user_shop_id u)) then
    (mkContext None None false false true,
     flash "Please select a shop to continue." "warning" v)
  else
    match Shop_get shops (default 0%Z (user_shop_id u)) with
    | None =>
        (mkContext None None false false true,
         set_user_shop None
           (flash "Invalid shop selected. Please choose a valid shop." "error" v))
    | Some row =>
        (mkContext (Some row)
           (if truthy_id (shop_business_id row)
            then Business_get businesses (default 0%Z (shop_business_id row))
            else None)
           false false false,
         v)
    end.

(** [index], the route [/]. *)
Definition index (shops : list ShopRow) (businesses : list Business)
    (request : Request) (v : Visit) : Response * Visit :=
  let requested_shop := get_shop_from_request (base <$> shops) request in
  match requested_shop, current_user v with
  | Some requested, None => (RenderCustomShop requested, v)
  | _, None => (RenderHome default_context, v)
  | _, Some u =>
      let '(context, v') :=
        match role u with
        | SuperAdmin => (mkContext None None true false false, v)
        | TenantOwner => tenant_context shops businesses u v
        | Admin | Cashier => staff_context shops businesses u v
        | OtherRole =>
            (default_context, flash "Invalid user role. Please contact support." "error" v)
        end in
      (RenderHome context, v')
  end.

(** [select_shop], the route [/select-shop/<int:shop_id>]. *)
Definition select_shop (shops : list ShopRow) (shop_id_arg : Z) (v : Visit)
    : Response * Visit :=
  match current_user v with
  | None => (RedirectHome, flash "You are not authorized to select a shop." "error" v)
  | Some u =>
      if negb (bool_decide (role u ∈ [Admin; Cashier; TenantOwner])) then
        (RedirectHome, flash "You are not authorized to select a shop." "error" v)
      else
        match Shop_get shops shop_id_arg with
        | None => (NotFound, v)
        | Some row =>
            if truthy_id (business_id u)
               && negb (bool_decide (shop_business_id row = business_id u)) then
              (RedirectHome, flash "Selected shop does not belong to your business." "error" v)
            else
              (RedirectSalesScreen shop_id_arg,
               flash ("Selected shop: " +:+ shop_name row) "success"
                 (set_user_shop (Some shop_id_arg)
                    (mkVisit (current_user v) (Some shop_id_arg) (flashes v))))
        end
  end.

(** [shop_homepage], the route [/shop/<int:shop_id>/homepage]. *)
Definition shop_homepage (shops : list ShopRow) (shop_id_arg : Z) : Response :=
  match Shop_get shops shop_id_arg with
  | Some row => RenderCustomShop (base row)
  | None => NotFound
  end.

(** [shop_homepage_by_slug], the route [/shop/<shop_slug>/homepage]. *)
Definition shop_homepage_by_slug (shops : list ShopRow) (shop_slug : string) : Response :=
  match by_slug (base <$> shops) shop_slug with
  | Some shop => RedirectShopHomepage (shop_id shop)
  | None => NotFound
  end.

(** Following a redirect to the shop homepage. *)
Definition follow (shops : list ShopRow) (r : Response) : Response :=
  match r with
  | RedirectShopHomepage k => shop_homepage shops k
  | _ => r
  end.

End Landing.

(** ** Sample data for the landing routes *)

Module LandingSample.
Import Routes Landing Sample.

(** Shop 1 belongs to business 10, shop 2 to business 20. *)
Definition row_a : ShopRow := mkShopRow shop_a "Duka" (Some 10%Z).
Definition row_b : ShopRow := mkShopRow shop_b "Shop One" (Some 20%Z).
Definition rows0 : list ShopRow := [row_a; row_b].
Definition businesses0 : list Business := [mkBusiness 10; mkBusiness 20].

(** A tenant of business 10 working in shop 1, the same tenant with shop 2
    of the other business recorded, and a cashier with no shop yet. *)
Definition tenant10 : User := mkUser 100 TenantOwner (Some 10%Z) (Some 1%Z).
Definition tenant10_stray : User := mkUser 100 TenantOwner (Some 10%Z) (Some 2%Z).
Definition cashier0 : User := mkUser 101 Cashier None None.

Definition visit_of (u : User) : Visit := mkVisit (Some u) None [].

Definition plain_request : Request := mkRequest None None None.

End LandingSample.

(** ** The backup script ([back.py]) *)

Module Backup.

(** A row as [csv.writer] receives it: one cell per column. *)
Definition Row : Type := list string.

(** The rows handed to [writer.writerow] and [writer.writerows], in order:
    for every table of the public schema a one-cell row naming it, the rows
    of [SELECT * FROM table], and an empty row.  [tables] pairs each table
    name with the rows its query returns. *)
Definition backup_rows (tables : list (string * list Row)) : list Row :=
  flat_map (λ t, ["Table: " +:+ t.1] :: t.2 ++ [[]]) tables.





End Backup.

(** ** Reordering a sale ([SalesService.reorder_sale]) *)

Module Reorder.
Import Services.
Local Open Scope Q_scope.

Record ReorderItem : Type := mkReorderItem {
  ri_product_id : Z;
  ri_quantity : Q;
  ri_original_price : Q;
  ri_current_price : Q
}.

Record ReorderData : Type := mkReorderData {
  items : list ReorderItem;
  original_total : Q;
  estimated_total : Q;
  original_payment_mode : string
}.

(** [SalesService.get_sale_details]: the sale of that id in that shop, with
    its line items. *)
Definition get_sale_details (db : Database) (sid shop_id : Z)
    : option (Sale * list CartItem) :=
  match List.find (λ r, bool_decide (sale_id r = sid) && bool_decide (sale_shop_id r = shop_id))
          (sales db) with
  | Some sale =>
      Some (sale, List.filter (λ i, bool_decide (item_sale_id i = sale_id sale)) (cart_items db))
  | None => None
  end.

(** [item.product.selling_price]: the [selling_price] column of the
    products table is kept beside the rows, keyed by product id; a line whose
    product is gone raises [AttributeError]. *)
Definition current_price (selling_price : gmap Z Q) (i : CartItem) : result Q :=
  match selling_price !! item_product_id i with
  | Some price => Ok price
  | None => Raise (AttributeError "'NoneType' object has no attribute 'id'")
  end.

Definition reorder_sale (db : Database) (selling_price : gmap Z Q) (sid shop_id : Z)
    : result (option ReorderData) :=
  match get_sale_details db sid shop_id with
  | None => Ok None
  | Some (sale, lines) =>
      items_ ← mapM (λ i, price ← current_price selling_price i ;
                          Ok (mkReorderItem (item_product_id i) (item_quantity i)
                                (item_unit_price i) price)) lines ;
      Ok (Some (mkReorderData items_
                  (sale_total sale)
                  (foldl Qplus 0 ((λ it, ri_quantity it * ri_current_price it) <$> items_))
                  (if sale_is_paid sale then "pay_now" else "pay_later")))
  end.

End Reorder.

(** * Properties *)

Import Decimal.

(** ** Rounding *)

Section Rounding.
Local Open Scope Q_scope.


Lemma to_integral_ROUND_UP_neg (x : Q) :
  x < 0 -> to_integral_ROUND_UP x = Qfloor x.
Proof.
  intros H. unfold to_integral_ROUND_UP.
  destruct (Qle_bool 0 x) eqn:E; [| reflexivity].
  apply Qle_bool_iff in E. lra.
Qed.





Example round_up_42 : round_up_to_nearest_five 42 == 45.
Proof. reflexivity. Qed.

Example round_up_40 : round_up_to_nearest_five 40 == 40.
Proof. reflexivity. Qed.

Example round_up_40_01 : round_up_to_nearest_five (4001 # 100) == 45.
Proof. reflexivity. Qed.

(** Away from zero: a negative amount is rounded down, to a more negative
    multiple of 5. *)
Example round_up_negative : round_up_to_nearest_five (-3) == -5.
Proof. reflexivity. Qed.

(** Ties go to the even cent. *)
Example quantize_tie_down : quantize_cents (125 # 1000) == 12 # 100.
Proof. reflexivity. Qed.

Example quantize_tie_up : quantize_cents (135 # 1000) == 14 # 100.
Proof. reflexivity. Qed.

(** The worked example of the specification: S = 100, C = 60, R = 0.16. *)
Example totals_100_60_16 :
  let T := Services.checkout_totals (Services.mkStaged 100 60 [] []) (16 # 100) in
  Services.tax_amount T == 16 /\ Services.total T == 116 /\ Services.profit T == 40.
Proof. repeat split; reflexivity. Qed.

End Rounding.

(** ** The checkout-request validator *)

Section Validation.
Import Schemas.
#[local] Set Warnings "-clear-no-such-hyp".

Lemma truthy_Some (o : option string) :
  truthy o = true <-> exists s, o = Some s /\ s <> "".
Proof.
  destruct o as [s|]; simpl.
  - rewrite negb_true_iff, bool_decide_eq_false. split.
    + intros H. exists s. split; [reflexivity | exact H].
    + intros (s' & [= <-] & H). exact H.
  - split; [discriminate | intros (s & [=] & _)].
Qed.


Ltac unfold_load :=
  unfold CheckoutSchema_load, validate_payment_fields, set_default_payment_method,
    field_payment_mode, field_payment_method, field_customer_name, OneOf, raise_if;
  cbn [payment_mode payment_method customer_name].

Ltac step_in H :=
  match type of H with
  | context [bool_decide ?P] =>
      destruct (bool_decide_reflect P); cbn in H; try discriminate H
  | context [truthy ?o] =>
      let E := fresh "Htruthy" in
      destruct (truthy o) eqn:E; cbn in H; try discriminate H
  end.

Lemma load_accepts_rule (mode method name : option string) :
  pairing_rule mode method name ->
  is_ok (CheckoutSchema_load (mkCheckoutData mode method name)) = true.
Proof.
  intros [(-> & [-> | ->]) | (-> & [-> | ->] & s & -> & Hs)];
    unfold_load; try reflexivity.
  all: cbn; rewrite (bool_decide_eq_false_2 _ Hs); reflexivity.
Qed.

Lemma load_accepted_rule (mode method name : option string) :
  is_ok (CheckoutSchema_load (mkCheckoutData mode method name)) = true ->
  pairing_rule mode method name.
Proof.
  unfold_load. intros H.
  destruct mode as [m|]; [| discriminate H]. cbn in H.
  destruct method as [s|]; cbn in H.
  all: repeat step_in H.
  all: simplify_eq.
  all: repeat match goal with
       | Hin : _ ∈ _ |- _ => rewrite !elem_of_cons, elem_of_nil in Hin
       | Ht : truthy _ = true |- _ => apply truthy_Some in Ht
       end.
  all: unfold pairing_rule; naive_solver.
Qed.

Lemma load_raises_ValidationError (d : CheckoutData) (e : exn) :
  CheckoutSchema_load d = Raise e -> exists msg, e = ValidationError msg.
Proof.
  destruct d as [mode method name]. unfold_load. intros H.
  destruct mode as [m|]; cbn in H; [| simplify_eq; eauto].
  destruct method as [s|]; cbn in H.
  all: repeat (match type of H with
       | context [bool_decide ?P] => destruct (bool_decide P); cbn in H
       | context [truthy ?o] => destruct (truthy o); cbn in H
       end; try discriminate H; try (injection H as <-; eauto)).
Qed.

(** C4. The checkout-request validator accepts a (payment_mode,
    payment_method, customer_name) triple exactly when it satisfies the
    pairing rule (pay_now with cash or mobile; pay_later with no method or
    pay_on_delivery and a customer name), and every triple it does not accept
    is rejected with a [ValidationError]. *)
Theorem checkout_validator_pairing (mode method name : option string) :
  (is_ok (CheckoutSchema_load (mkCheckoutData mode method name)) = true
   <-> pairing_rule mode method name)
  /\ (is_ok (CheckoutSchema_load (mkCheckoutData mode method name)) = true
      \/ exists msg, CheckoutSchema_load (mkCheckoutData mode method name)
                     = Raise (ValidationError msg)).
Proof.
  split.
  - split; [apply load_accepted_rule | apply load_accepts_rule].
  - destruct (CheckoutSchema_load _) as [d'|e] eqn:E; [left; reflexivity | right].
    destruct (load_raises_ValidationError _ _ E) as [msg ->]. eauto.
Qed.


Example load_defaults_method :
  CheckoutSchema_load (mkCheckoutData (Some "pay_later") None (Some "Amina"))
  = Ok (mkCheckoutData (Some "pay_later") (Some "pay_on_delivery") (Some "Amina")).
Proof. reflexivity. Qed.

Example load_rejects_empty_name :
  CheckoutSchema_load (mkCheckoutData (Some "pay_later") None (Some ""))
  = Raise (ValidationError "Customer name is required for 'pay_later' sales.").
Proof. reflexivity. Qed.

Example load_rejects_pay_now_on_delivery :
  CheckoutSchema_load (mkCheckoutData (Some "pay_now") (Some "pay_on_delivery") None)
  = Raise (ValidationError
             "For pay_now mode, payment method must be either 'cash' or 'mobile'.").
Proof. reflexivity. Qed.

End Validation.

(** ** Checkout *)

Section Checkout.
Import Services.
Local Open Scope Q_scope.

Lemma product_map_of_lookup (db : Database) (ids : list Z) (shop : Z) (k : Z) :
  product_map_of db ids shop !! k
  = match products db !! k with
    | Some p => if decide (k ∈ ids ∧ product_shop_id p = shop) then Some p else None
    | None => None
    end.
Proof.
  unfold product_map_of, get_bulk_for_sale.
  rewrite list_to_map_to_list, map_lookup_filter.
  destruct (products db !! k) as [p|]; cbn; [| reflexivity].
  destruct (decide (k ∈ ids ∧ product_shop_id p = shop)) as [H|H].
  - rewrite option_guard_True by exact H. reflexivity.
  - rewrite option_guard_False by exact H. reflexivity.
Qed.


(** What one iteration of the loop does when it does not raise. *)
Lemma stage_line_Ok shop mode (pm : gmap Z Product) acc item staged :
  stage_line shop mode pm acc item = Ok staged ->
  exists p,
    pm !! line_product_id item = Some p
    /\ (mode = "pay_now" -> line_quantity item <= product_stock p)
    /\ staged =
       mkStaged
         (subtotal acc + round_up_to_nearest_five (line_quantity item * line_price item))
         (total_cost acc + line_quantity item * product_cost_price p)
         (cart_item_data acc ++
            [mkCartItemData shop (line_product_id item) (line_quantity item)
               (line_price item)
               (round_up_to_nearest_five (line_quantity item * line_price item))])
         (if bool_decide (mode = "pay_now")
          then stock_updates acc ++
                 [mkStockUpdate (line_product_id item)
                    (product_stock p - line_quantity item)]
          else stock_updates acc).
Proof.
  unfold stage_line. destruct (pm !! line_product_id item) as [p|]; [| discriminate].
  unfold raise_if. cbn.
  destruct (bool_decide_reflect (mode = "pay_now")) as [Hm|Hm]; cbn.
  - destruct (Qle_bool (line_quantity item) (product_stock p)) eqn:Hq; cbn; [| discriminate].
    intros [= <-]. exists p. split; [reflexivity |]. split; [| reflexivity].
    intros _. apply Qle_bool_iff, Hq.
  - intros [= <-]. exists p. split; [reflexivity |]. split; [| reflexivity].
    intros Hm'. contradiction.
Qed.


Lemma stage_lines_Ok shop mode (pm : gmap Z Product) cart acc staged :
  stage_lines shop mode pm cart acc = Ok staged ->
  Forall (line_passes mode pm) cart
  /\ subtotal staged == subtotal acc + sum_subtotals cart
  /\ total_cost staged == total_cost acc + sum_costs pm cart
  /\ cart_item_data staged =
     cart_item_data acc ++
       ((λ l, mkCartItemData shop (line_product_id l) (line_quantity l) (line_price l)
                (round_up_to_nearest_five (line_quantity l * line_price l))) <$> cart)
  /\ stock_updates staged =
     stock_updates acc ++
       (if bool_decide (mode = "pay_now") then staged_update pm <$> cart else []).
Proof.
  revert acc. induction cart as [| item rest IH]; intros acc; cbn.
  - intros [= <-]. split; [constructor |].
    unfold sum_subtotals, sum_costs. cbn.
    repeat split; try ring; rewrite ?app_nil_r; try reflexivity.
    destruct (bool_decide _); rewrite app_nil_r; reflexivity.
  - destruct (stage_line shop mode pm acc item) as [acc'|e] eqn:Hline; [| discriminate].
    cbn. intros Hrest.
    destruct (stage_line_Ok _ _ _ _ _ _ Hline) as (p & Hp & Hq & ->).
    destruct (IH _ Hrest) as (Hall & Hsub & Hcost & Hdata & Hupd). cbn in *.
    split; [constructor; [exists p; auto | exact Hall] |].
    unfold sum_subtotals, sum_costs in *. cbn. rewrite Hp.
    split; [rewrite Hsub; ring |].
    split; [rewrite Hcost; ring |].
    split; [rewrite Hdata, <- app_assoc; reflexivity |].
    rewrite Hupd. unfold staged_update at 2. rewrite Hp.
    destruct (bool_decide (mode = "pay_now")); [rewrite <- app_assoc |]; reflexivity.
Qed.



Section Transaction.
Variable sale_total_of : Z -> list CartItemData -> Q.


Lemma checkout_transaction_Ok shop user cart mode method cd s r s' :
  checkout_transaction sale_total_of shop user cart mode method cd s = (Ok r, s') ->
  exists staged,
    stage_lines shop mode (product_map_of (working s) (line_product_id <$> cart) shop)
      cart empty_staged = Ok staged
    /\ let sale := created_sale sale_total_of s shop user staged mode method cd in
       let totals := checkout_totals staged (Tax_get_tax_rate (working s) shop) in
       let paid := bool_decide (mode = "pay_now") in
       s' = mkState (committed_checkout s staged sale) (committed_checkout s staged sale)
              (threads s ++ (if paid
                             then [mkTask (sale_id sale) shop user (total totals) (length cart)]
                             else []))
              (clock s)
       /\ r = mkCheckoutResult true (sale_id sale) mode
                (if paid then COMPLETED else PENDING) paid
                (if paid then total totals else 0) paid (customer_get cust_name cd).
Proof.
  unfold checkout_transaction. cbn.
  unfold mbind, M_bind, gets, lift. cbn.
  destruct (stage_lines _ _ _ _ _) as [staged|e]; [| discriminate].
  intros H. exists staged. split; [reflexivity |]. cbn.
  unfold sale_status_of in H.
  unfold committed_checkout, created_sale.
  destruct (stock_updates staged) as [| u us] eqn:Hu;
    destruct (bool_decide (mode = "pay_now")); cbn in H; injection H as <- <-;
    cbn; rewrite ?app_nil_r; split; reflexivity.
Qed.

Lemma checkout_transaction_Raise shop user cart mode method cd s e s' :
  checkout_transaction sale_total_of shop user cart mode method cd s = (Raise e, s') ->
  s' = s
  /\ stage_lines shop mode (product_map_of (working s) (line_product_id <$> cart) shop)
       cart empty_staged = Raise e.
Proof.
  unfold checkout_transaction. cbn.
  unfold mbind, M_bind, gets, lift. cbn.
  destruct (stage_lines _ _ _ _ _) as [staged|e0].
  - unfold sale_status_of.
    destruct (stock_updates staged); destruct (bool_decide (mode = "pay_now"));
      cbn; discriminate.
  - intros [= <- <-]. split; reflexivity.
Qed.

Lemma stage_line_raises_ValueError shop mode (pm : gmap Z Product) acc item e :
  stage_line shop mode pm acc item = Raise e -> exists msg, e = ValueError msg.
Proof.
  unfold stage_line, raise_if.
  destruct (pm !! line_product_id item) as [p|]; [| intros [= <-]; eauto].
  destruct (_ && _); cbn; [intros [= <-]; eauto | discriminate].
Qed.

Lemma stage_lines_raises_ValueError shop mode (pm : gmap Z Product) cart acc e :
  stage_lines shop mode pm cart acc = Raise e -> exists msg, e = ValueError msg.
Proof.
  revert acc. induction cart as [| item rest IH]; intros acc; cbn; [discriminate |].
  destruct (stage_line shop mode pm acc item) as [acc'|e0] eqn:Hline; cbn.
  - apply IH.
  - intros [= <-]. eapply stage_line_raises_ValueError, Hline.
Qed.

Lemma check_payment_fields_raises mode method cd e :
  check_payment_fields mode method cd = Raise e -> exists msg, e = ValueError msg.
Proof.
  unfold check_payment_fields, raise_if.
  repeat (match goal with
          | |- context [bool_decide ?P] => destruct (bool_decide P); cbn
          | |- context [truthy ?o] => destruct (truthy o); cbn
          end; try discriminate; try (intros [= <-]; eauto)).
Qed.

Lemma normalize_cart_raises raw_cart e :
  normalize_cart raw_cart = Raise e -> exists msg, e = ValueError msg.
Proof.
  unfold normalize_cart.
  destruct (mapM normalize_item raw_cart) as [lines|[]]; try discriminate;
    intros [= <-]; eauto.
Qed.

(** A successful checkout went through validation, normalization and the
    transaction. *)
Lemma process_checkout_Ok shop user raw_cart mode method cd s r s' :
  process_checkout sale_total_of shop user raw_cart mode method cd s = (Ok r, s') ->
  exists method' cart,
    raw_cart <> []
    /\ check_payment_fields mode method cd = Ok method'
    /\ normalize_cart raw_cart = Ok cart
    /\ checkout_transaction sale_total_of shop user cart mode method' cd s = (Ok r, s').
Proof.
  unfold process_checkout. destruct raw_cart as [| item rest]; [discriminate |].
  unfold mbind, M_bind, lift, try_except.
  destruct (check_payment_fields mode method cd) as [method'|]; [| discriminate].
  destruct (normalize_cart (item :: rest)) as [cart|]; [| discriminate].
  destruct (checkout_transaction _ _ _ _ _ _ _ s) as [[r0|e0] s0] eqn:Htx.
  - intros [= <- <-]. exists method', cart. repeat split; [discriminate | exact Htx].
  - cbn. discriminate.
Qed.

(** A failed checkout raised a [ValueError]; it either failed before the
    [try] block, with the state untouched, or inside it, where the handler
    rolled the session back. *)
Lemma process_checkout_Raise shop user raw_cart mode method cd s e s' :
  process_checkout sale_total_of shop user raw_cart mode method cd s = (Raise e, s') ->
  (exists msg, e = ValueError msg)
  /\ (s' = s \/ s' = mkState (committed s) (committed s) (threads s) (clock s)).
Proof.
  unfold process_checkout. destruct raw_cart as [| item rest].
  { intros [= <- <-]. split; [eauto | left; reflexivity]. }
  unfold mbind, M_bind, lift, try_except.
  destruct (check_payment_fields mode method cd) as [method'|e1] eqn:Hpay.
  2:{ intros [= <- <-]. split; [| left; reflexivity].
      eapply check_payment_fields_raises, Hpay. }
  destruct (normalize_cart (item :: rest)) as [cart|e2] eqn:Hnorm.
  2:{ intros [= <- <-]. split; [| left; reflexivity].
      eapply normalize_cart_raises, Hnorm. }
  destruct (checkout_transaction _ _ _ _ _ _ _ s) as [[r0|e0] s0] eqn:Htx; [discriminate |].
  apply checkout_transaction_Raise in Htx as [-> _].
  cbn. intros [= <- <-]. split; [eauto | right; reflexivity].
Qed.

(** C2. A checkout that fails raises a [ValueError] and leaves the
    persistent state as it was: the committed tables (products and their
    stock, sales, cart items) are unchanged, no thread was started, and a
    session that had nothing pending still has nothing pending. *)
Theorem failed_checkout_changes_nothing shop user raw_cart mode method cd s e s' :
  process_checkout sale_total_of shop user raw_cart mode method cd s = (Raise e, s') ->
  (exists msg, e = ValueError msg)
  /\ committed s' = committed s
  /\ threads s' = threads s
  /\ (clean s -> s' = s).
Proof.
  intros H. apply process_checkout_Raise in H as [He [-> | ->]].
  - repeat split; auto.
  - cbn. repeat split; auto.
    unfold clean. destruct s as [c w t k]. cbn. intros ->. reflexivity.
Qed.

(** X5. A cart with a line that does not pass its check (unknown product, or
    for pay_now more than the stock) is rejected, and nothing is committed. *)
Lemma checkout_rejects_failing_line shop user raw_cart cart mode method cd s :
  normalize_cart raw_cart = Ok cart ->
  ~ Forall (line_passes mode (product_map_of (working s) (line_product_id <$> cart) shop))
      cart ->
  exists msg s',
    process_checkout sale_total_of shop user raw_cart mode method cd s
    = (Raise (ValueError msg), s')
    /\ committed s' = committed s.
Proof.
  intros Hnorm Hfail.
  destruct (process_checkout sale_total_of shop user raw_cart mode method cd s)
    as [[r|e] s'] eqn:Hrun.
  - exfalso. apply Hfail.
    apply process_checkout_Ok in Hrun as (method' & cart' & _ & _ & Hnorm' & Htx).
    rewrite Hnorm in Hnorm'. injection Hnorm' as <-.
    apply checkout_transaction_Ok in Htx as (staged & Hstage & _).
    apply stage_lines_Ok in Hstage as (Hall & _). exact Hall.
  - apply process_checkout_Raise in Hrun as ((msg & ->) & [-> | ->]); eauto.
Qed.

(** Whatever a failed transaction had staged, the handler discards it. *)
Lemma rollback_discards_pending (e : exn) (s : State) :
  (db_session_rollback ;;
   raise (A := CheckoutResult) (ValueError ("Checkout processing failed: " +:+ exn_str e))) s
  = (Raise (ValueError ("Checkout processing failed: " +:+ exn_str e)),
     mkState (committed s) (committed s) (threads s) (clock s)).
Proof. reflexivity. Qed.

Lemma check_payment_fields_Ok mode method cd method' :
  check_payment_fields mode method cd = Ok method' ->
  (mode = "pay_now" /\ method' = method
   /\ (method = Some "cash" \/ method = Some "mobile"))
  \/ (mode = "pay_later" /\ method' = Some "pay_on_delivery"
      /\ (method = Some "pay_on_delivery" \/ truthy method = false)
      /\ truthy (customer_get cust_name cd) = true).
Proof.
  unfold check_payment_fields, raise_if.
  destruct (bool_decide_reflect (mode = "pay_now")) as [-> | Hnow].
  - destruct (bool_decide_reflect (method ∈ [Some "cash"; Some "mobile"])) as [Hin|];
      cbn; [| discriminate].
    intros [= <-]. left. rewrite !elem_of_cons, elem_of_nil in Hin.
    destruct Hin as [-> | [-> | []]]; auto.
  - destruct (bool_decide_reflect (mode = "pay_later")) as [-> | Hlater]; [| discriminate].
    destruct (truthy method) eqn:Hm; cbn.
    + destruct (bool_decide_reflect (method = Some "pay_on_delivery")) as [-> |];
        cbn; [| discriminate].
      destruct (truthy (customer_get cust_name cd)); cbn; [| discriminate].
      intros [= <-]. right. auto.
    + destruct (truthy (customer_get cust_name cd)); cbn; [| discriminate].
      intros [= <-]. right. auto.
Qed.

(** C3. A successful checkout adds one sale.  In pay_now mode the result and
    the sale are COMPLETED and paid; in pay_later mode they are PENDING and
    unpaid and the sale's payment method is pay_on_delivery, whatever the
    caller passed. *)
Theorem checkout_mode_invariant shop user raw_cart mode method cd s r s' :
  process_checkout sale_total_of shop user raw_cart mode method cd s = (Ok r, s') ->
  exists sale,
    sales (committed s') = sales (working s) ++ [sale]
    /\ sale_id sale = res_sale_id r
    /\ (mode = "pay_now" ->
        res_status r = COMPLETED /\ res_is_paid r = true
        /\ sale_status sale = COMPLETED /\ sale_is_paid sale = true)
    /\ (mode = "pay_later" ->
        res_status r = PENDING /\ res_is_paid r = false
        /\ sale_status sale = PENDING /\ sale_is_paid sale = false
        /\ sale_payment_method sale = Some "pay_on_delivery").
Proof.
  intros H. apply process_checkout_Ok in H as (method' & cart & _ & Hpay & _ & Htx).
  apply checkout_transaction_Ok in Htx as (staged & _ & -> & ->).
  eexists. cbn. split; [reflexivity |]. split; [reflexivity |].
  split.
  - intros ->. cbn. auto.
  - intros ->. cbn.
    apply check_payment_fields_Ok in Hpay as [(Hmode & _) | (_ & -> & _)];
      [discriminate | auto 6].
Qed.




(** *** The batched stock update *)

Lemma set_stock_set_stock (a b : Q) (p : Product) :
  set_stock a (set_stock b p) = set_stock a p.
Proof. reflexivity. Qed.

Lemma filter_fmap {A B} (f : B -> bool) (g : A -> B) (l : list A) :
  List.filter f (g <$> l) = g <$> List.filter (λ x, f (g x)) l.
Proof.
  induction l as [| x l IH]; cbn; [reflexivity |].
  destruct (f (g x)); cbn; rewrite IH; reflexivity.
Qed.

(** After the UPDATEs have run in order, a row holds the stock of the last
    instruction that names it, and is untouched if none does. *)
Lemma stock_updates_lookup (us : list StockUpdate) (m : gmap Z Product) (k : Z) :
  foldl apply_stock_update m us !! k
  = match last (List.filter (λ u, bool_decide (p_id u = k)) us) with
    | Some u => set_stock (new_stock u) <$> m !! k
    | None => m !! k
    end.
Proof.
  induction us as [| u us IH] using rev_ind; [reflexivity |].
  rewrite foldl_app, List.filter_app. cbn.
  unfold apply_stock_update at 1. rewrite lookup_alter.
  destruct (bool_decide_reflect (p_id u = k)) as [Hk | Hk].
  - rewrite decide_True by exact Hk. rewrite last_snoc. subst k. rewrite IH.
    destruct (last _); [| reflexivity].
    destruct (m !! p_id u); reflexivity.
  - rewrite decide_False by exact Hk. rewrite app_nil_r. exact IH.
Qed.

Lemma line_passes_product_map mode (db : Database) ids shop (l : CartLine) :
  line_passes mode (product_map_of db ids shop) l ->
  exists p, products db !! line_product_id l = Some p
            /\ product_map_of db ids shop !! line_product_id l = Some p
            /\ (mode = "pay_now" -> line_quantity l <= product_stock p).
Proof.
  intros (p & Hp & Hq). exists p. split; [| auto].
  rewrite product_map_of_lookup in Hp.
  destruct (products db !! line_product_id l) as [p'|]; [| discriminate].
  case_decide; [congruence | discriminate].
Qed.

Lemma staged_update_agree (pm m : gmap Z Product) (cart : list CartLine) :
  Forall (λ l, pm !! line_product_id l = m !! line_product_id l) cart ->
  staged_update pm <$> cart = staged_update m <$> cart.
Proof.
  induction 1 as [| l rest Hl _ IH]; [reflexivity |].
  cbn. rewrite IH. unfold staged_update at 1 3. rewrite Hl. reflexivity.
Qed.

Lemma checkout_commits_last_line shop user raw_cart method cd s r s' :
  process_checkout sale_total_of shop user raw_cart "pay_now" method cd s = (Ok r, s') ->
  exists cart staged,
    normalize_cart raw_cart = Ok cart
    /\ stage_lines shop "pay_now"
         (product_map_of (working s) (line_product_id <$> cart) shop)
         cart empty_staged = Ok staged
    /\ Forall (λ l, exists p, products (working s) !! line_product_id l = Some p
                              /\ line_quantity l <= product_stock p) cart
    /\ stock_updates staged = staged_update (products (working s)) <$> cart
    /\ (forall pid l, last (lines_of pid cart) = Some l ->
          exists p, products (working s) !! pid = Some p
                    /\ products (committed s') !! pid
                       = Some (set_stock (product_stock p - line_quantity l) p))
    /\ (forall pid, lines_of pid cart = [] ->
          products (committed s') !! pid = products (working s) !! pid).
Proof.
  intros H. apply process_checkout_Ok in H as (method' & cart & _ & _ & Hnorm & Htx).
  apply checkout_transaction_Ok in Htx as (staged & Hstage & -> & _).
  exists cart, staged. split; [exact Hnorm |]. split; [exact Hstage |].
  apply stage_lines_Ok in Hstage as (Hall & _ & _ & _ & Hupd). cbn in Hupd.
  set (pm := product_map_of _ _ _) in *.
  assert (Hall' : Forall (λ l, exists p, products (working s) !! line_product_id l = Some p
                                         /\ pm !! line_product_id l = Some p
                                         /\ line_quantity l <= product_stock p) cart).
  { eapply Forall_impl; [exact Hall |]. intros l Hl.
    apply line_passes_product_map in Hl as (p & H1 & H2 & H3). eauto 6. }
  assert (Hupd' : stock_updates staged = staged_update (products (working s)) <$> cart).
  { rewrite Hupd, bool_decide_eq_true_2 by reflexivity.
    apply staged_update_agree. eapply Forall_impl; [exact Hall' |].
    intros l (p & H1 & H2 & _). congruence. }
  split; [eapply Forall_impl; [exact Hall' |]; intros l (p & ? & ? & ?); eauto |].
  split; [exact Hupd' |].
  cbn. rewrite Hupd'. split.
  - intros pid l Hlast.
    assert (Hin : l ∈ cart /\ line_product_id l = pid).
    { apply last_Some_elem_of in Hlast. unfold lines_of in Hlast.
      apply list_elem_of_In, List.filter_In in Hlast as [Hin Hb].
      apply bool_decide_eq_true in Hb. split; [apply list_elem_of_In, Hin | exact Hb]. }
    destruct Hin as [Hin <-].
    rewrite Forall_forall in Hall'. destruct (Hall' l Hin) as (p & Hp & _ & _).
    exists p. split; [exact Hp |].
    rewrite stock_updates_lookup, filter_fmap. cbn.
    fold (lines_of (line_product_id l) cart). rewrite fmap_last, Hlast. cbn.
    rewrite Hp. cbn. reflexivity.
  - intros pid Hnone.
    rewrite stock_updates_lookup, filter_fmap. cbn.
    fold (lines_of pid cart). rewrite Hnone. reflexivity.
Qed.

(** C10. In a pay_now checkout every line is checked on its own against the
    stock the product had before the checkout, every staged update is that
    stock minus that one line's quantity, and the committed stock of a product
    is its earlier stock minus the quantity of the last line that names it:
    the quantities of several lines for one product are not added up. *)
Theorem duplicate_lines_last_wins shop user raw_cart method cd s r s' :
  process_checkout sale_total_of shop user raw_cart "pay_now" method cd s = (Ok r, s') ->
  exists cart staged,
    normalize_cart raw_cart = Ok cart
    /\ stage_lines shop "pay_now"
         (product_map_of (working s) (line_product_id <$> cart) shop)
         cart empty_staged = Ok staged
    /\ Forall (λ l, exists p, products (working s) !! line_product_id l = Some p
                              /\ line_quantity l <= product_stock p) cart
    /\ stock_updates staged = staged_update (products (working s)) <$> cart
    /\ (forall pid l, last (lines_of pid cart) = Some l ->
          exists p, products (working s) !! pid = Some p
                    /\ products (committed s') !! pid
                       = Some (set_stock (product_stock p - line_quantity l) p))
    /\ (forall pid, lines_of pid cart = [] ->
          products (committed s') !! pid = products (working s) !! pid).
Proof. apply checkout_commits_last_line. Qed.

Lemma lines_of_NoDup (pid : Z) (cart : list CartLine) :
  NoDup (line_product_id <$> cart) ->
  lines_of pid cart = [] \/ exists l, lines_of pid cart = [l].
Proof.
  unfold lines_of. induction cart as [| l rest IH]; cbn; [auto |].
  intros Hnd. apply NoDup_cons in Hnd as [Hnotin Hnd].
  destruct (bool_decide_reflect (line_product_id l = pid)) as [<- | Hne]; [| auto].
  right. exists l. f_equal.
  destruct (List.filter _ rest) as [| l' rest'] eqn:Hl; [reflexivity |].
  exfalso. apply Hnotin.
  assert (Hin : In l' (List.filter
                         (λ l0, bool_decide (line_product_id l0 = line_product_id l)) rest))
    by (rewrite Hl; left; reflexivity).
  apply List.filter_In in Hin as [Hin Hb].
  apply bool_decide_eq_true in Hb. rewrite <- Hb.
  apply list_elem_of_fmap. exists l'. split; [reflexivity | apply list_elem_of_In, Hin].
Qed.

(** X4. When no product is named by two lines, the checkout does deduct what
    was asked: the committed stock is the earlier stock minus the requested
    quantity, and it is not negative. *)
Lemma checkout_distinct_lines_stock shop user raw_cart method cd s r s' :
  process_checkout sale_total_of shop user raw_cart "pay_now" method cd s = (Ok r, s') ->
  exists cart,
    normalize_cart raw_cart = Ok cart
    /\ (NoDup (line_product_id <$> cart) ->
        forall pid p,
          products (working s) !! pid = Some p ->
          exists p', products (committed s') !! pid = Some p'
                     /\ product_stock p' == product_stock p - requested pid cart
                     /\ (0 <= product_stock p -> 0 <= product_stock p')).
Proof.
  intros H.
  apply checkout_commits_last_line in H
    as (cart & staged & Hnorm & _ & Hall & _ & Hlast & Hnone).
  exists cart. split; [exact Hnorm |]. intros Hnd pid p Hp.
  destruct (lines_of_NoDup pid cart Hnd) as [Hl | (l & Hl)].
  - exists p. rewrite (Hnone pid Hl). split; [exact Hp |].
    unfold requested. rewrite Hl. cbn. split; [ring | auto].
  - destruct (Hlast pid l) as (p0 & Hp0 & Hc); [rewrite Hl; reflexivity |].
    rewrite Hp in Hp0. injection Hp0 as <-.
    eexists. split; [exact Hc |]. unfold requested. rewrite Hl. cbn.
    split; [ring |]. intros _.
    assert (Hin : l ∈ lines_of pid cart) by (rewrite Hl; left).
    unfold lines_of in Hin. apply list_elem_of_In, List.filter_In in Hin as [Hin Hb].
    apply bool_decide_eq_true in Hb. subst pid.
    rewrite Forall_forall in Hall.
    destruct (Hall l (proj2 (list_elem_of_In _ _) Hin)) as (p1 & Hp1 & Hq).
    rewrite Hp in Hp1. injection Hp1 as <-. lra.
Qed.


End Transaction.
End Checkout.

(** ** Worked checkouts *)

Section CheckoutExamples.
Import Services Sample.
Local Open Scope Q_scope.

Lemma failed_checkout_changes_nothing_witness :
  process_checkout flat_pricing 1 7 cart_unknown "pay_now" (Some "cash") None s0
  = (Raise (ValueError "Checkout processing failed: Product 2 not found"), s0)
  /\ (exists msg, ValueError "Checkout processing failed: Product 2 not found" = ValueError msg)
  /\ committed s0 = committed s0
  /\ threads s0 = threads s0
  /\ (clean s0 -> s0 = s0).
Proof.
  assert (H : process_checkout flat_pricing 1 7 cart_unknown "pay_now" (Some "cash") None s0
              = (Raise (ValueError "Checkout processing failed: Product 2 not found"), s0))
    by (vm_compute; reflexivity).
  split; [exact H |].
  exact (failed_checkout_changes_nothing flat_pricing 1 7 cart_unknown "pay_now"
           (Some "cash") None s0 _ s0 H).
Defined.

Lemma checkout_mode_invariant_witness :
  exists r s',
    process_checkout flat_pricing 1 7 cart_single "pay_later" None amina s0 = (Ok r, s')
    /\ exists sale,
         sales (committed s') = sales (working s0) ++ [sale]
         /\ sale_id sale = res_sale_id r
         /\ ("pay_later" = "pay_now" ->
             res_status r = COMPLETED /\ res_is_paid r = true
             /\ sale_status sale = COMPLETED /\ sale_is_paid sale = true)
         /\ ("pay_later" = "pay_later" ->
             res_status r = PENDING /\ res_is_paid r = false
             /\ sale_status sale = PENDING /\ sale_is_paid sale = false
             /\ sale_payment_method sale = Some "pay_on_delivery").
Proof.
  eexists _, _.
  assert (H : process_checkout flat_pricing 1 7 cart_single "pay_later" None amina s0
              = (Ok _, _)) by (vm_compute; reflexivity).
  split; [exact H |].
  exact (checkout_mode_invariant flat_pricing 1 7 cart_single "pay_later" None amina
           s0 _ _ H).
Defined.


Lemma duplicate_lines_last_wins_witness :
  exists r s',
    process_checkout flat_pricing 1 7 cart_twice "pay_now" (Some "cash") None s0 = (Ok r, s')
    /\ stock_of (committed s') 1 = Some (10 - 4).
Proof.
  eexists _, _.
  assert (H : process_checkout flat_pricing 1 7 cart_twice "pay_now" (Some "cash") None s0
              = (Ok _, _)) by (vm_compute; reflexivity).
  split; [exact H |].
  destruct (duplicate_lines_last_wins flat_pricing 1 7 cart_twice (Some "cash") None s0 _ _ H)
    as (cart & staged & Hnorm & _ & _ & _ & Hlast & _).
  injection Hnorm as <-.
  destruct (Hlast 1%Z (mkCartLine 1 4 100) eq_refl) as (p & Hp & Hc).
  injection Hp as <-. unfold stock_of. rewrite Hc. reflexivity.
Defined.

(** C1, evaluated.  Ten of sugar are in stock.  A pay_now cart with lines of 3
    and 4 is committed with 6 left, not 10 - 7 = 3; a cart with lines of 6 and
    6 asks for twelve and is accepted, leaving 4. *)
Theorem checkout_duplicate_lines_stock :
  (exists r s',
     process_checkout flat_pricing 1 7 cart_twice "pay_now" (Some "cash") None s0 = (Ok r, s')
     /\ requested 1 [mkCartLine 1 3 100; mkCartLine 1 4 100] == 7
     /\ stock_of (working s0) 1 = Some 10
     /\ exists left_, stock_of (committed s') 1 = Some left_
                      /\ left_ == 6 /\ ~ left_ == 10 - 7)
  /\ (exists r s',
        process_checkout flat_pricing 1 7 cart_over "pay_now" (Some "cash") None s0 = (Ok r, s')
        /\ requested 1 [mkCartLine 1 6 100; mkCartLine 1 6 100] == 12
        /\ exists left_, stock_of (committed s') 1 = Some left_ /\ left_ == 4).
Proof.
  split.
  - eexists _, _. split; [vm_compute; reflexivity |].
    split; [reflexivity |]. split; [reflexivity |].
    eexists. split; [vm_compute; reflexivity |]. split; [reflexivity | discriminate].
  - eexists _, _. split; [vm_compute; reflexivity |].
    split; [reflexivity |].
    eexists. split; [vm_compute; reflexivity |]. reflexivity.
Qed.
End CheckoutExamples.

(** ** Completing a pay-later sale *)

Section Completion.
Import Services.
Local Open Scope Q_scope.

Lemma deduct_item_Ok (i : CartItem) (s s' : State) :
  deduct_item i s = (Ok (), s') ->
  exists p,
    products (working s) !! item_product_id i = Some p
    /\ item_quantity i <= product_stock p
    /\ s' = set_working
              (set_products
                 (<[item_product_id i := set_stock (product_stock p - item_quantity i) p]>
                    (products (working s)))
                 (working s)) s.
Proof.
  unfold deduct_item.
  destruct (products (working s) !! item_product_id i) as [p|]; [| discriminate].
  destruct (Qle_bool (item_quantity i) (product_stock p)) eqn:Hq; cbn; [| discriminate].
  intros [= <-]. exists p. split; [reflexivity |]. split; [| reflexivity].
  apply Qle_bool_iff, Hq.
Qed.

Lemma deduct_item_Raise (i : CartItem) (s : State) e s' :
  deduct_item i s = (Raise e, s') -> s' = s.
Proof.
  unfold deduct_item.
  destruct (products (working s) !! item_product_id i) as [p|]; [| congruence].
  destruct (Qle_bool _ _); cbn; [discriminate | congruence].
Qed.

Lemma deducted_cons (pid : Z) (i : CartItem) (rest : list CartItem) :
  deducted pid (i :: rest)
  == (if bool_decide (item_product_id i = pid) then item_quantity i else 0)
     + deducted pid rest.
Proof.
  unfold deducted, items_of. cbn.
  destruct (bool_decide (item_product_id i = pid)); cbn; ring.
Qed.

(** The loop over the sale's lines deducts every line, each from the stock
    left by the lines before it, and touches nothing but product stock. *)
Lemma deduct_items_Ok (items : list CartItem) (s s' : State) :
  deduct_items items s = (Ok (), s') ->
  committed s' = committed s /\ threads s' = threads s /\ clock s' = clock s
  /\ taxes (working s') = taxes (working s)
  /\ sales (working s') = sales (working s)
  /\ cart_items (working s') = cart_items (working s)
  /\ forall pid,
       match products (working s) !! pid with
       | Some p =>
           exists p', products (working s') !! pid = Some p'
                      /\ product_stock p' == product_stock p - deducted pid items
                      /\ (0 <= product_stock p -> 0 <= product_stock p')
       | None => products (working s') !! pid = None
       end.
Proof.
  revert s. induction items as [| i rest IH]; intros s; cbn [deduct_items].
  - intros [= <-]. repeat split.
    intros pid. destruct (products (working s) !! pid) as [p|]; [| reflexivity].
    exists p. split; [reflexivity |]. unfold deducted. cbn. split; [ring | auto].
  - unfold mbind, M_bind.
    destruct (deduct_item i s) as [[[]|e] s1] eqn:Hi; [| discriminate].
    intros Hrest. apply deduct_item_Ok in Hi as (p & Hp & Hq & ->).
    apply IH in Hrest as (Hc & Ht & Hk & Htax & Hsales & Hitems & Hstock).
    cbn in Hc, Ht, Hk, Htax, Hsales, Hitems.
    repeat (split; [assumption |]).
    intros pid. specialize (Hstock pid). cbn in Hstock.
    pose proof (deducted_cons pid i rest) as Hd.
    destruct (decide (item_product_id i = pid)) as [<- | Hne].
    + rewrite lookup_insert_eq in Hstock. rewrite Hp.
      destruct Hstock as (p' & Hp' & Hs & Hn). cbn in Hs, Hn.
      exists p'. split; [exact Hp' |].
      rewrite bool_decide_eq_true_2 in Hd by reflexivity.
      split; [lra | intros _; apply Hn; lra].
    + rewrite lookup_insert_ne in Hstock by exact Hne.
      rewrite bool_decide_eq_false_2 in Hd by exact Hne.
      destruct (products (working s) !! pid) as [p0|]; [| exact Hstock].
      destruct Hstock as (p' & Hp' & Hs & Hn).
      exists p'. split; [exact Hp' |]. split; [lra | exact Hn].
Qed.

Lemma deduct_items_Raise (items : list CartItem) (s : State) e s' :
  deduct_items items s = (Raise e, s') ->
  committed s' = committed s /\ threads s' = threads s /\ clock s' = clock s.
Proof.
  revert s. induction items as [| i rest IH]; intros s; cbn; [discriminate |].
  unfold mbind, M_bind.
  destruct (deduct_item i s) as [[[]|e1] s1] eqn:Hi.
  - intros Hrest. apply IH in Hrest as (-> & -> & ->).
    apply deduct_item_Ok in Hi as (p & _ & _ & ->). auto.
  - intros [= <- <-]. apply deduct_item_Raise in Hi as ->. auto.
Qed.

Lemma completion_transaction_Ok sid shop method items s r s' :
  completion_transaction sid shop method items s = (Ok r, s') ->
  exists s1, deduct_items items s = (Ok (), s1)
             /\ products (committed s') = products (working s1)
             /\ working s' = committed s'.
Proof.
  unfold completion_transaction, mbind, M_bind.
  destruct (deduct_items items s) as [[[]|e] s1]; [| discriminate].
  intros H. exists s1. split; [reflexivity |].
  unfold update_sale_payment_status in H. cbn in H.
  destruct (List.find _ (sales (working s1))); cbn in H; [| discriminate].
  injection H as <- <-. cbn. auto.
Qed.

Lemma completion_transaction_Raise sid shop method items s e s' :
  completion_transaction sid shop method items s = (Raise e, s') ->
  committed s' = committed s /\ threads s' = threads s /\ clock s' = clock s.
Proof.
  unfold completion_transaction, mbind, M_bind.
  destruct (deduct_items items s) as [[[]|e1] s1] eqn:Hd.
  - apply deduct_items_Ok in Hd as (Hc & Ht & Hk & _).
    unfold update_sale_payment_status. cbn.
    destruct (List.find _ (sales (working s1))); cbn; [discriminate |].
    intros [= <- <-]. cbn. auto.
  - intros [= <- <-]. eapply deduct_items_Raise, Hd.
Qed.

Lemma completion_Ok_stock sid shop method s r s' :
  complete_pay_later_sale sid shop method s = (Ok r, s') ->
  exists sale items,
    get_sale_with_items (working s) sid shop = Some (sale, items)
    /\ forall pid p,
         products (working s) !! pid = Some p ->
         exists p', products (committed s') !! pid = Some p'
                    /\ product_stock p' == product_stock p - deducted pid items
                    /\ (0 <= product_stock p -> 0 <= product_stock p').
Proof.
  unfold complete_pay_later_sale.
  destruct (negb _); [discriminate |].
  unfold mbind, M_bind, gets, try_except.
  destruct (get_sale_with_items (working s) sid shop) as [[sale items]|]; [| discriminate].
  destruct (sale_is_paid sale); [discriminate |].
  destruct (negb _); [discriminate |].
  destruct (completion_transaction sid shop method items s) as [[r0|e] s0] eqn:Htx;
    [| cbn; discriminate].
  intros [= <- <-]. exists sale, items. split; [reflexivity |].
  apply completion_transaction_Ok in Htx as (s1 & Hd & Hprod & _).
  apply deduct_items_Ok in Hd as (_ & _ & _ & _ & _ & _ & Hstock).
  intros pid p Hp. specialize (Hstock pid). rewrite Hp in Hstock.
  rewrite Hprod. exact Hstock.
Qed.

(** X1. The other half of the stock rule: paying a deferred sale leaves each
    product with its earlier stock minus the summed quantities of the sale's
    lines for it, and never below zero. *)
Theorem completion_deducts_every_line sid shop method s r s' :
  complete_pay_later_sale sid shop method s = (Ok r, s') ->
  exists sale items,
    get_sale_with_items (working s) sid shop = Some (sale, items)
    /\ forall pid p,
         products (working s) !! pid = Some p ->
         exists p', products (committed s') !! pid = Some p'
                    /\ product_stock p' == product_stock p - deducted pid items
                    /\ (0 <= product_stock p -> 0 <= product_stock p').
Proof. apply completion_Ok_stock. Qed.

Lemma completion_Raise_committed sid shop method s e s' :
  complete_pay_later_sale sid shop method s = (Raise e, s') ->
  (exists msg, e = ValueError msg) /\ committed s' = committed s.
Proof.
  unfold complete_pay_later_sale.
  destruct (negb _); [intros [= <- <-]; eauto |].
  unfold mbind, M_bind, gets, try_except.
  destruct (get_sale_with_items (working s) sid shop) as [[sale items]|];
    [| intros [= <- <-]; eauto].
  destruct (sale_is_paid sale); [intros [= <- <-]; eauto |].
  destruct (negb _); [intros [= <- <-]; eauto |].
  destruct (completion_transaction sid shop method items s) as [[r0|e0] s0] eqn:Htx;
    [discriminate |].
  cbn. intros [= <- <-]. cbn.
  apply completion_transaction_Raise in Htx as (-> & _). eauto.
Qed.

(** X2. A completion that fails raises a [ValueError] and commits nothing:
    stock, sales and line items stay as they were. *)
Theorem failed_completion_changes_nothing sid shop method s e s' :
  complete_pay_later_sale sid shop method s = (Raise e, s') ->
  (exists msg, e = ValueError msg) /\ committed s' = committed s.
Proof. apply completion_Raise_committed. Qed.

(** X3. A completion whose lines ask, in sum, for more of a product than is
    in stock is rejected with a [ValueError] and commits nothing. *)
Theorem completion_rejects_overdraw sid shop method s sale items pid p :
  get_sale_with_items (working s) sid shop = Some (sale, items) ->
  products (working s) !! pid = Some p ->
  0 <= product_stock p ->
  product_stock p < deducted pid items ->
  exists msg s',
    complete_pay_later_sale sid shop method s = (Raise (ValueError msg), s')
    /\ committed s' = committed s.
Proof.
  intros Hsale Hp Hnonneg Hover.
  destruct (complete_pay_later_sale sid shop method s) as [[r|e] s'] eqn:Hrun.
  - apply completion_Ok_stock in Hrun as (sale' & items' & Hsale' & Hstock).
    rewrite Hsale in Hsale'. injection Hsale' as <- <-.
    destruct (Hstock pid p Hp) as (p' & _ & Hs & Hn). specialize (Hn Hnonneg). lra.
  - apply completion_Raise_committed in Hrun as ((msg & ->) & Hc). eauto.
Qed.

End Completion.

(** ** Shop resolution *)

Section ShopResolution.
Import Routes Sample.












(** The two scenarios of the specification, and a reserved label. *)
Example custom_domain_beats_shop_id :
  get_shop_from_request shops0 request_domain_and_id = Some shop_a
  /\ shop_id_source shops0 request_domain_and_id = Some shop_b.
Proof. split; reflexivity. Qed.

Example slug_resolves_unmatched_host :
  by_custom_domain shops0 "shop1.example.com" = None
  /\ subdomain_source shops0 "shop1.example.com" = None
  /\ get_shop_from_request shops0 request_slug = Some shop_b.
Proof. repeat split; reflexivity. Qed.

Example reserved_label_is_skipped :
  by_subdomain [shop_www] "www" = Some shop_www
  /\ get_shop_from_request [shop_www] request_www = None.
Proof. split; reflexivity. Qed.

End ShopResolution.

(** ** The tax-rate cache *)

Section TaxCache.
Import Services.

Lemma cache_keys_remove (k : Z) (c : TaxCache) :
  cache_keys (cache_remove k c)
  = List.filter (λ j, negb (bool_decide (j = k))) (cache_keys c).
Proof.
  unfold cache_keys, cache_remove. induction c as [| [j v] c IH]; cbn; [reflexivity |].
  destruct (bool_decide (j = k)); cbn; rewrite IH; reflexivity.
Qed.

Lemma cache_find_None (k : Z) (c : TaxCache) :
  cache_find k c = None -> k ∉ cache_keys c.
Proof.
  unfold cache_find, cache_keys. induction c as [| [j v] c IH]; cbn.
  - intros _. apply not_elem_of_nil.
  - destruct (bool_decide_reflect (j = k)) as [-> | Hne]; cbn; [discriminate |].
    intros H. apply not_elem_of_cons. split; [congruence | apply IH, H].
Qed.

Lemma cache_find_Some (k : Z) (c : TaxCache) (rate : Q) :
  cache_find k c = Some rate -> k ∈ cache_keys c.
Proof.
  unfold cache_find, cache_keys. induction c as [| [j v] c IH]; cbn; [discriminate |].
  destruct (bool_decide_reflect (j = k)) as [-> | Hne]; cbn.
  - intros _. left.
  - intros H. right. apply IH, H.
Qed.

Lemma filter_absent (k : Z) (l : list Z) :
  k ∉ l -> List.filter (λ j, negb (bool_decide (j = k))) l = l.
Proof.
  induction l as [| j l IH]; cbn; [reflexivity |].
  intros H. apply not_elem_of_cons in H as [Hne Hl].
  rewrite bool_decide_eq_false_2 by congruence. cbn. rewrite IH by exact Hl. reflexivity.
Qed.

Lemma filter_length_le (k : Z) (l : list Z) :
  length (List.filter (λ j, negb (bool_decide (j = k))) l) <= length l.
Proof.
  induction l as [| j l IH]; cbn; [lia |].
  destruct (negb _); cbn; lia.
Qed.

Lemma filter_present_shorter (k : Z) (l : list Z) :
  k ∈ l -> length (List.filter (λ j, negb (bool_decide (j = k))) l) < length l.
Proof.
  induction l as [| j l IH]; cbn.
  - intros H. apply elem_of_nil in H as [].
  - intros H. destruct (bool_decide_reflect (j = k)) as [-> | Hne]; cbn.
    + pose proof (filter_length_le k l). lia.
    + apply elem_of_cons in H as [-> | H]; [contradiction |].
      specialize (IH H). lia.
Qed.

(** One call: the key moves or comes to the front, and what no longer fits
    falls off the back. *)
Lemma get_tax_rate_keys (db : Database) (c : TaxCache) (k : Z) :
  length c <= maxsize ->
  cache_keys (get_tax_rate db c k).2
  = take maxsize (k :: List.filter (λ j, negb (bool_decide (j = k))) (cache_keys c)).
Proof.
  intros Hlen. unfold get_tax_rate.
  destruct (cache_find k c) as [rate|] eqn:Hfind; cbn [snd].
  - apply cache_find_Some in Hfind.
    change (cache_keys ((k, rate) :: cache_remove k c))
      with (k :: cache_keys (cache_remove k c)).
    rewrite cache_keys_remove. symmetry. apply take_ge. cbn.
    pose proof (filter_present_shorter k (cache_keys c) Hfind) as Hlt.
    unfold cache_keys in Hlt at 2. rewrite length_fmap in Hlt. lia.
  - apply cache_find_None in Hfind. rewrite (filter_absent _ _ Hfind).
    unfold cache_keys. rewrite fmap_take. reflexivity.
Qed.

Lemma recency_snoc (ids : list Z) (k : Z) :
  recency (ids ++ [k]) = k :: List.filter (λ j, negb (bool_decide (j = k))) (recency ids).
Proof. unfold recency. rewrite foldl_app. reflexivity. Qed.

Lemma filter_NoDup (k : Z) (l : list Z) :
  NoDup l -> NoDup (List.filter (λ j, negb (bool_decide (j = k))) l).
Proof.
  induction 1 as [| j l Hj Hl IH]; cbn; [constructor |].
  destruct (negb _); [| exact IH].
  constructor; [| exact IH].
  intros Hin. apply Hj. apply list_elem_of_In, List.filter_In in Hin as [Hin _].
  apply list_elem_of_In, Hin.
Qed.

Lemma filter_not_elem (k : Z) (l : list Z) :
  k ∉ List.filter (λ j, negb (bool_decide (j = k))) l.
Proof.
  intros Hin. apply list_elem_of_In, List.filter_In in Hin as [_ Hb].
  rewrite bool_decide_eq_true_2 in Hb by reflexivity. discriminate.
Qed.

Lemma recency_NoDup (ids : list Z) : NoDup (recency ids).
Proof.
  induction ids as [| k ids IH] using rev_ind; [constructor |].
  rewrite recency_snoc. constructor; [apply filter_not_elem | apply filter_NoDup, IH].
Qed.

(** Dropping the tail before or after taking one key out makes no
    difference to the first [n] survivors, since at most one key goes. *)
Lemma take_filter_take (k : Z) (n : nat) (l : list Z) :
  NoDup l ->
  take n (List.filter (λ j, negb (bool_decide (j = k))) (take (S n) l))
  = take n (List.filter (λ j, negb (bool_decide (j = k))) l).
Proof.
  intros Hnd. revert n. induction Hnd as [| j l Hj Hl IH]; intros n; [reflexivity |].
  cbn [take List.filter].
  destruct (bool_decide_reflect (j = k)) as [-> | Hne]; cbn [negb].
  - rewrite (filter_absent k l Hj).
    rewrite filter_absent; [apply take_idemp |].
    intros Hin. apply Hj. apply elem_of_take in Hin as (i & Hi & _).
    eapply list_elem_of_lookup_2, Hi.
  - destruct n as [| n]; [reflexivity |].
    cbn [take]. rewrite IH. reflexivity.
Qed.

Lemma run_lookups_snoc (calls : list (Database * Z)) (call : Database * Z) (c : TaxCache) :
  run_lookups (calls ++ [call]) c = (get_tax_rate call.1 (run_lookups calls c) call.2).2.
Proof. unfold run_lookups. rewrite foldl_app. reflexivity. Qed.

(** The cache holds the most recently looked up shop ids, newest first, up
    to its capacity. *)
Lemma run_lookups_keys (calls : list (Database * Z)) :
  cache_keys (run_lookups calls []) = take maxsize (recency (snd <$> calls)).
Proof.
  induction calls as [| [db k] calls IH] using rev_ind; [reflexivity |].
  rewrite run_lookups_snoc, fmap_app. cbn [fst snd fmap list_fmap].
  rewrite recency_snoc.
  rewrite get_tax_rate_keys.
  - rewrite IH. unfold maxsize at 1 3. cbn [take]. f_equal.
    apply take_filter_take, recency_NoDup.
  - rewrite <- (length_fmap fst). fold (cache_keys (run_lookups calls [])).
    rewrite IH, length_take. lia.
Qed.


(** C9. The cached tax-rate lookup never holds more than 32 shop ids, never
    holds one twice, and holds exactly the 32 most recently looked up ones;
    so when it is full and another shop id is looked up, the entry that goes
    is the least recently accessed one, at the back. *)
Theorem tax_cache_bound (calls : list (Database * Z)) :
  let c := run_lookups calls [] in
  length c <= 32
  /\ NoDup (cache_keys c)
  /\ cache_keys c = take 32 (recency (snd <$> calls))
  /\ (forall db k,
        length c = 32 -> k ∉ cache_keys c ->
        let c' := (get_tax_rate db c k).2 in
        length c' = 32
        /\ cache_keys c' = k :: take 31 (cache_keys c)
        /\ (forall j, last (cache_keys c) = Some j -> j ∉ cache_keys c')).
Proof.
  cbn zeta. pose proof (run_lookups_keys calls) as Hkeys.
  set (c := run_lookups calls []) in *.
  assert (Hnd : NoDup (cache_keys c)).
  { rewrite Hkeys. eapply sublist_NoDup; [| apply sublist_take]. apply recency_NoDup. }
  assert (Hlen : length c <= 32).
  { rewrite <- (length_fmap fst). fold (cache_keys c). rewrite Hkeys, length_take.
    unfold maxsize. lia. }
  split; [exact Hlen |]. split; [exact Hnd |]. split; [exact Hkeys |].
  intros db k Hfull Hk.
  assert (Hc' : cache_keys (get_tax_rate db c k).2 = k :: take 31 (cache_keys c)).
  { rewrite get_tax_rate_keys by exact Hlen.
    rewrite (filter_absent _ _ Hk). reflexivity. }
  assert (Hklen : length (cache_keys c) = 32)
    by (unfold cache_keys; rewrite length_fmap; exact Hfull).
  split.
  - rewrite <- (length_fmap fst). fold (cache_keys (get_tax_rate db c k).2).
    rewrite Hc'. cbn. rewrite length_take. lia.
  - split; [exact Hc' |].
    intros j Hlast. rewrite Hc'. apply not_elem_of_cons. split.
    + intros ->. apply Hk. apply last_Some_elem_of, Hlast.
    + rewrite last_lookup, Hklen in Hlast. cbn in Hlast.
      intros Hin. apply elem_of_take in Hin as (i & Hi & Hlt).
      pose proof (NoDup_lookup _ _ _ _ Hnd Hi Hlast). lia.
Qed.

(** Thirty-three shops in a row: the first one looked up is the one
    evicted. *)
Example tax_cache_evicts_oldest :
  let calls := (λ k, (Sample.db0, k)) <$> seqZ 1 33 in
  cache_keys (run_lookups calls []) = reverse (seqZ 2 32)
  /\ length (run_lookups calls []) = 32%nat.
Proof. vm_compute. split; reflexivity. Qed.

(** Looking shop 1 up again before the thirty-third keeps it and evicts
    shop 2 instead. *)
Example tax_cache_hit_refreshes :
  let calls := (λ k, (Sample.db0, k)) <$> (seqZ 1 32 ++ [1; 33]%Z) in
  cache_keys (run_lookups calls []) = [33; 1]%Z ++ reverse (seqZ 3 30).
Proof. vm_compute. reflexivity. Qed.

End TaxCache.

(** ** The daily summary *)

Section DailySummary.
Import Services.
Local Open Scope Q_scope.

(** C8, evaluated.  [timedelta] is bound by no import of [services.py], so
    every call of the daily summary raises [NameError] at its first
    statement and returns no summary, for any shop and any window. *)
Theorem daily_summary_raises_NameError (db : Database) (now shop days : Z) :
  get_daily_sales_summary db now shop days = Raise (NameError "timedelta").
Proof. reflexivity. Qed.

Example timedelta_unbound :
  load_global "datetime" = Ok () /\ load_global "timedelta" = Raise (NameError "timedelta").
Proof. split; reflexivity. Qed.

(** What the statements after the first would compute: per-day rows newest
    first and the paid/unpaid split, here for shop 1 over the sample sales. *)
Example summary_since_sample :
  summary_since Sample.db_sales 0 1
  = mkSummary [mkDayRow 1 1 348; mkDayRow 0 2 174] 464 2 58 1.
Proof. vm_compute. reflexivity. Qed.

End DailySummary.

(** ** More on checkout and completion *)

Section CheckoutOutcome.
Import Services.
Local Open Scope Q_scope.
Variable sale_total_of : Z -> list CartItemData -> Q.



(** X7. A pay_later checkout reserves nothing: product stock is left as it
    was, no background thread is started, and the result reports an unpaid
    sale with nothing paid and no receipt pending. *)
Theorem pay_later_checkout_defers_stock shop user raw_cart method cd s r s' :
  process_checkout sale_total_of shop user raw_cart "pay_later" method cd s = (Ok r, s') ->
  products (committed s') = products (working s)
  /\ threads s' = threads s
  /\ res_is_paid r = false
  /\ res_amount_paid r = 0
  /\ res_receipt_pending r = false.
Proof.
  intros H. apply process_checkout_Ok in H as (method' & cart & _ & _ & _ & Htx).
  apply checkout_transaction_Ok in Htx as (staged & Hstage & -> & ->).
  apply stage_lines_Ok in Hstage as (_ & _ & _ & _ & Hupd).
  cbn in Hupd. cbn. rewrite Hupd. cbn. rewrite app_nil_r. auto.
Qed.




End CheckoutOutcome.

Section CompletionOutcome.
Import Services Completion.
Local Open Scope Q_scope.

Lemma find_fmap_stable {A} (f : A -> bool) (g : A -> A) (l : list A) :
  (forall x, f (g x) = f x) -> List.find f (g <$> l) = g <$> List.find f l.
Proof.
  intros Hfg. induction l as [| x l IH]; cbn; [reflexivity |].
  rewrite Hfg. destruct (f x); [reflexivity | exact IH].
Qed.

(** Everything a successful completion does to the state. *)
Lemma completion_Ok_state sid shop method s r s' :
  complete_pay_later_sale sid shop method s = (Ok r, s') ->
  exists sale items s1,
    (method = "cash" \/ method = "mobile")
    /\ get_sale_with_items (working s) sid shop = Some (sale, items)
    /\ sale_is_paid sale = false
    /\ sale_payment_method sale = Some "pay_on_delivery"
    /\ deduct_items items s = (Ok (), s1)
    /\ s' = (let db' :=
               mkDatabase (products (working s1)) (taxes (working s))
                 ((λ row, if is_sale sid shop row then mark_paid (Some method) row else row)
                    <$> sales (working s))
                 (cart_items (working s)) in
             mkState db' db'
               (threads s ++ [mkTask sid shop (sale_user_id sale) (sale_total sale)
                                (length items)])
               (clock s))
    /\ r = mkCompletionResult true sid COMPLETED true (sale_total sale).
Proof.
  unfold complete_pay_later_sale.
  destruct (bool_decide_reflect (method ∈ ["cash"; "mobile"])) as [Hm|]; cbn [negb];
    [| discriminate].
  unfold mbind, M_bind, gets, try_except.
  destruct (get_sale_with_items (working s) sid shop) as [[sale items]|] eqn:Hget;
    [| discriminate].
  destruct (sale_is_paid sale) eqn:Hpaid; [discriminate |].
  destruct (bool_decide_reflect (sale_payment_method sale = Some "pay_on_delivery"))
    as [Hpod|]; cbn [negb]; [| discriminate].
  destruct (completion_transaction sid shop method items s) as [[r0|e] s0] eqn:Htx;
    [| cbn; discriminate].
  intros [= <- <-].
  unfold completion_transaction, mbind, M_bind in Htx.
  destruct (deduct_items items s) as [[[]|e] s1] eqn:Hd; [| discriminate].
  pose proof (deduct_items_Ok _ _ _ Hd) as (Hc & Ht & Hk & Htax & Hsales & Hitems & _).
  unfold update_sale_payment_status in Htx. cbn in Htx.
  unfold get_sale_with_items in Hget. rewrite <- Hsales in Hget.
  destruct (List.find _ (sales (working s1))) as [found|] eqn:Hfind; [| discriminate].
  injection Hget as <- <-. cbn in Htx. injection Htx as <- <-.
  apply List.find_some in Hfind as [_ Hhit].
  apply andb_true_iff in Hhit as [Hid Hshop].
  apply bool_decide_eq_true in Hid. apply bool_decide_eq_true in Hshop.
  exists found, (List.filter (λ i, bool_decide (item_sale_id i = sale_id found))
                   (cart_items (working s))), s1.
  rewrite !elem_of_cons, elem_of_nil in Hm.
  split; [tauto |]. split; [reflexivity |].
  split; [exact Hpaid |]. split; [exact Hpod |]. split; [exact Hd |].
  unfold is_sale. rewrite Ht, Hk, Htax, Hsales, Hitems, Hid. split; reflexivity.
Qed.


(** X9. A successful completion was paid in cash or by mobile, reports the
    sale COMPLETED and paid, marks exactly the sale of that id and shop as
    paid with the method actually used, leaves every other sale and all line
    items as they were, commits, and starts one background thread for the
    sale. *)
Theorem completion_marks_sale_paid sid shop method s r s' :
  complete_pay_later_sale sid shop method s = (Ok r, s') ->
  (method = "cash" \/ method = "mobile")
  /\ cres_sale_id r = sid /\ cres_status r = COMPLETED /\ cres_is_paid r = true
  /\ (forall i row,
        sales (working s) !! i = Some row ->
        sales (committed s') !! i
        = Some (if is_sale sid shop row
                then mkSale (sale_id row) (sale_shop_id row) (sale_user_id row)
                       (sale_date row) (sale_total row) (sale_payment_mode row)
                       (Some method) (sale_customer_name row) (sale_customer_phone row)
                       (sale_notes row) COMPLETED true
                else row))
  /\ length (sales (committed s')) = length (sales (working s))
  /\ cart_items (committed s') = cart_items (working s)
  /\ working s' = committed s'
  /\ exists task, threads s' = threads s ++ [task] /\ task_sale_id task = sid.
Proof.
  intros H.
  apply completion_Ok_state in H as (sale & items & s1 & Hm & _ & _ & _ & _ & -> & ->).
  cbn. split; [exact Hm |]. repeat (split; [reflexivity |]).
  split.
  - intros i row Hrow. rewrite list_lookup_fmap, Hrow. reflexivity.
  - split; [apply length_fmap |]. repeat (split; [reflexivity |]).
    eexists. split; reflexivity.
Qed.

(** X10. A sale cannot be paid twice: after a successful completion, a
    second completion of the same sale is refused with "Sale is already
    paid" and changes nothing. *)
Theorem completion_not_repeatable sid shop method method2 s r s' :
  complete_pay_later_sale sid shop method s = (Ok r, s') ->
  method2 = "cash" \/ method2 = "mobile" ->
  complete_pay_later_sale sid shop method2 s'
  = (Raise (ValueError "Sale is already paid"), s').
Proof.
  intros H Hm2.
  apply completion_Ok_state in H as (sale & items & s1 & _ & Hget & _ & _ & _ & -> & _).
  unfold complete_pay_later_sale.
  rewrite bool_decide_eq_true_2
    by (rewrite !elem_of_cons; destruct Hm2; auto).
  cbn [negb]. unfold mbind, M_bind, gets. cbn [working].
  unfold get_sale_with_items in *. cbn [sales].
  change (λ r0 : Sale, bool_decide (sale_id r0 = sid) && bool_decide (sale_shop_id r0 = shop))
    with (is_sale sid shop) in *.
  rewrite find_fmap_stable.
  - destruct (List.find (is_sale sid shop) (sales (working s))) as [found|] eqn:Hfind;
      [| discriminate].
    cbn. apply List.find_some in Hfind as [_ Hhit]. rewrite Hhit. reflexivity.
  - intros row. destruct (is_sale sid shop row) eqn:Hrow; [| exact Hrow].
    exact Hrow.
Qed.

End CompletionOutcome.

Section DeferredSale.
Import Services Completion.
Local Open Scope Q_scope.
Variable sale_total_of : Z -> list CartItemData -> Q.

Lemma sale_id_below_next (db : Database) (row : Sale) :
  row ∈ sales db -> (sale_id row < next_sale_id db)%Z.
Proof.
  unfold next_sale_id. induction (sales db) as [| x l IH]; cbn.
  - intros H. apply elem_of_nil in H as [].
  - intros H. apply elem_of_cons in H as [-> | H]; [lia |]. specialize (IH H). lia.
Qed.

Lemma find_snoc_new {A} (f : A -> bool) (l : list A) (x : A) :
  Forall (λ y, f y = false) l -> f x = true -> List.find f (l ++ [x]) = Some x.
Proof.
  induction 1 as [| y l Hy _ IH]; cbn; intros Hx; [rewrite Hx; reflexivity |].
  rewrite Hy. apply IH, Hx.
Qed.

Lemma filter_none {A} (f : A -> bool) (l : list A) :
  Forall (λ y, f y = false) l -> List.filter f l = [].
Proof.
  induction 1 as [| y l Hy _ IH]; cbn; [reflexivity |]. rewrite Hy. exact IH.
Qed.

Lemma filter_all {A} (f : A -> bool) (l : list A) :
  Forall (λ y, f y = true) l -> List.filter f l = l.
Proof.
  induction 1 as [| y l Hy _ IH]; cbn; [reflexivity |]. rewrite Hy, IH. reflexivity.
Qed.

(** The lines a pay_later checkout stores are found again under the new
    sale's id, and ask of each product what the cart asked. *)
Lemma deferred_sale_found shop user raw_cart method cd s r s1 :
  items_reference_sales (working s) ->
  process_checkout sale_total_of shop user raw_cart "pay_later" method cd s = (Ok r, s1) ->
  exists cart sale items,
    normalize_cart raw_cart = Ok cart
    /\ get_sale_with_items (working s1) (res_sale_id r) shop = Some (sale, items)
    /\ products (working s1) = products (working s)
    /\ forall pid, deducted pid items = requested pid cart.
Proof.
  intros Hfk H.
  apply process_checkout_Ok in H as (method' & cart & _ & _ & Hnorm & Htx).
  apply checkout_transaction_Ok in Htx as (staged & Hstage & -> & ->).
  apply stage_lines_Ok in Hstage as (_ & _ & _ & Hdata & Hupd).
  cbn in Hdata, Hupd. cbn [res_sale_id working].
  set (sale := created_sale sale_total_of s shop user staged "pay_later" method' cd).
  exists cart, sale, (new_cart_item (sale_id sale) <$> cart_item_data staged).
  split; [exact Hnorm |].
  assert (Hold : Forall (λ i, bool_decide (item_sale_id i = sale_id sale) = false)
                   (cart_items (working s))).
  { eapply Forall_impl; [exact Hfk |]. intros i (row & Hrow & Hid).
    apply bool_decide_eq_false. apply sale_id_below_next in Hrow.
    subst sale. cbn. lia. }
  split.
  - unfold get_sale_with_items, committed_checkout. cbn [sales cart_items].
    rewrite find_snoc_new.
    + rewrite List.filter_app, (filter_none _ _ Hold), filter_all; [reflexivity |].
      apply Forall_fmap, Forall_true. intros d. cbn. apply bool_decide_eq_true_2.
      reflexivity.
    + apply Forall_forall. intros row Hrow. apply andb_false_iff. left.
      apply bool_decide_eq_false. apply sale_id_below_next in Hrow. subst sale. cbn. lia.
    + subst sale. cbn. rewrite !bool_decide_eq_true_2 by reflexivity. reflexivity.
  - split.
    + unfold committed_checkout. cbn [products]. rewrite Hupd. reflexivity.
    + intros pid. unfold deducted, requested, items_of, lines_of.
      rewrite Hdata. cbn [app]. rewrite <- list_fmap_compose, filter_fmap, <- list_fmap_compose.
      reflexivity.
Qed.

(** X11. Stock is committed when a deferred sale is paid: a pay_later
    checkout followed by the completion of the sale it created leaves each
    product with its stock before the checkout minus the summed quantities
    of the cart's lines for it, also when several lines name one product. *)
Theorem deferred_sale_round_trip shop user raw_cart method cd pay s r s1 r2 s2 :
  items_reference_sales (working s) ->
  process_checkout sale_total_of shop user raw_cart "pay_later" method cd s = (Ok r, s1) ->
  complete_pay_later_sale (res_sale_id r) shop pay s1 = (Ok r2, s2) ->
  exists cart,
    normalize_cart raw_cart = Ok cart
    /\ forall pid p,
         products (working s) !! pid = Some p ->
         exists p', products (committed s2) !! pid = Some p'
                    /\ product_stock p' == product_stock p - requested pid cart.
Proof.
  intros Hfk Hcheckout Hcomplete.
  destruct (deferred_sale_found _ _ _ _ _ _ _ _ Hfk Hcheckout)
    as (cart & sale & items & Hnorm & Hget & Hprod & Hsum).
  exists cart. split; [exact Hnorm |]. intros pid p Hp.
  apply completion_Ok_stock in Hcomplete as (sale' & items' & Hget' & Hstock).
  rewrite Hget in Hget'. injection Hget' as <- <-.
  rewrite <- Hprod in Hp. destruct (Hstock pid p Hp) as (p' & Hp' & Hs & _).
  exists p'. split; [exact Hp' |]. rewrite <- Hsum. exact Hs.
Qed.

End DeferredSale.

(** ** Worked deferred sales *)

Section DeferredExamples.
Import Services Completion Sample Scenario.
Local Open Scope Q_scope.

Lemma completion_deducts_every_line_witness :
  exists r s',
    complete_pay_later_sale 1 1 "cash" s_deferred = (Ok r, s')
    /\ exists p', products (committed s') !! 1%Z = Some p' /\ product_stock p' == 3.
Proof.
  eexists _, _.
  assert (H : complete_pay_later_sale 1 1 "cash" s_deferred = (Ok _, _))
    by (vm_compute; reflexivity).
  split; [exact H |].
  destruct (completion_deducts_every_line 1 1 "cash" s_deferred _ _ H)
    as (sale & items & Hget & Hstock).
  vm_compute in Hget. injection Hget as <- <-.
  destruct (Hstock 1%Z sugar eq_refl) as (p' & Hp' & Hs & _).
  exists p'. split; [exact Hp' |]. rewrite Hs. reflexivity.
Defined.

Lemma failed_completion_changes_nothing_witness :
  exists e s',
    complete_pay_later_sale 1 1 "cash" s_overdrawn = (Raise e, s')
    /\ (exists msg, e = ValueError msg) /\ committed s' = committed s_overdrawn.
Proof.
  eexists _, _.
  assert (H : complete_pay_later_sale 1 1 "cash" s_overdrawn = (Raise _, _))
    by (vm_compute; reflexivity).
  split; [exact H |].
  exact (failed_completion_changes_nothing 1 1 "cash" s_overdrawn _ _ H).
Defined.

Lemma completion_rejects_overdraw_witness :
  exists sale items,
    get_sale_with_items (working s_overdrawn) 1 1 = Some (sale, items)
    /\ products (working s_overdrawn) !! 1%Z = Some sugar
    /\ 0 <= product_stock sugar
    /\ product_stock sugar < deducted 1 items
    /\ exists msg s',
         complete_pay_later_sale 1 1 "mobile" s_overdrawn = (Raise (ValueError msg), s')
         /\ committed s' = committed s_overdrawn.
Proof.
  eexists _, _.
  assert (Hget : get_sale_with_items (working s_overdrawn) 1 1 = Some (_, _))
    by (vm_compute; reflexivity).
  assert (Hp : products (working s_overdrawn) !! 1%Z = Some sugar) by reflexivity.
  assert (Hnonneg : 0 <= product_stock sugar) by discriminate.
  match type of Hget with
  | _ = Some (_, ?items) =>
      assert (Hover : product_stock sugar < deducted 1 items) by reflexivity
  end.
  split; [exact Hget |]. split; [exact Hp |]. split; [exact Hnonneg |].
  split; [exact Hover |].
  exact (completion_rejects_overdraw 1 1 "mobile" s_overdrawn _ _ 1%Z sugar
           Hget Hp Hnonneg Hover).
Defined.

Lemma checkout_distinct_lines_stock_witness :
  exists r s',
    process_checkout flat_pricing 1 7 cart_single "pay_now" (Some "cash") None s0 = (Ok r, s')
    /\ exists p', products (committed s') !! 1%Z = Some p' /\ product_stock p' == 7.
Proof.
  eexists _, _.
  assert (H : process_checkout flat_pricing 1 7 cart_single "pay_now" (Some "cash") None s0
              = (Ok _, _)) by (vm_compute; reflexivity).
  split; [exact H |].
  destruct (checkout_distinct_lines_stock flat_pricing 1 7 cart_single (Some "cash") None
              s0 _ _ H) as (cart & Hnorm & Hstock).
  injection Hnorm as <-.
  assert (Hnd : NoDup (line_product_id <$> [mkCartLine 1 3 100]))
    by (apply NoDup_singleton).
  destruct (Hstock Hnd 1%Z sugar eq_refl) as (p' & Hp' & Hs & _).
  exists p'. split; [exact Hp' |]. rewrite Hs. reflexivity.
Defined.

Lemma checkout_rejects_failing_line_witness :
  normalize_cart cart_unknown = Ok [mkCartLine 1 3 100; mkCartLine 2 1 50]
  /\ exists msg s',
       process_checkout flat_pricing 1 7 cart_unknown "pay_now" (Some "cash") None s0
       = (Raise (ValueError msg), s')
       /\ committed s' = committed s0.
Proof.
  assert (Hnorm : normalize_cart cart_unknown = Ok [mkCartLine 1 3 100; mkCartLine 2 1 50])
    by reflexivity.
  split; [exact Hnorm |].
  apply (checkout_rejects_failing_line flat_pricing 1 7 cart_unknown _ "pay_now"
           (Some "cash") None s0 Hnorm).
  intros Hall. apply Forall_cons in Hall as [_ Hall]. apply Forall_cons in Hall as [Hl _].
  destruct Hl as (p & Hp & _). vm_compute in Hp. discriminate Hp.
Defined.

Lemma pay_later_checkout_defers_stock_witness :
  exists r s',
    process_checkout flat_pricing 1 7 cart_over "pay_later" None amina s0 = (Ok r, s')
    /\ products (committed s') = products (working s0)
    /\ threads s' = threads s0
    /\ res_is_paid r = false
    /\ res_amount_paid r = 0
    /\ res_receipt_pending r = false.
Proof.
  eexists _, _.
  assert (H : process_checkout flat_pricing 1 7 cart_over "pay_later" None amina s0
              = (Ok _, _)) by (vm_compute; reflexivity).
  split; [exact H |].
  exact (pay_later_checkout_defers_stock flat_pricing 1 7 cart_over None amina s0 _ _ H).
Defined.


Lemma completion_marks_sale_paid_witness :
  exists r s',
    complete_pay_later_sale 1 1 "mobile" s_deferred = (Ok r, s')
    /\ cres_is_paid r = true
    /\ (sale_payment_method <$> sales (committed s') !! 0%nat) = Some (Some "mobile").
Proof.
  eexists _, _.
  assert (H : complete_pay_later_sale 1 1 "mobile" s_deferred = (Ok _, _))
    by (vm_compute; reflexivity).
  split; [exact H |].
  destruct (completion_marks_sale_paid 1 1 "mobile" s_deferred _ _ H)
    as (_ & _ & _ & Hpaid & Hrows & _).
  split; [exact Hpaid |]. reflexivity.
Defined.

Lemma completion_not_repeatable_witness :
  exists r s',
    complete_pay_later_sale 1 1 "cash" s_deferred = (Ok r, s')
    /\ complete_pay_later_sale 1 1 "mobile" s'
       = (Raise (ValueError "Sale is already paid"), s').
Proof.
  eexists _, _.
  assert (H : complete_pay_later_sale 1 1 "cash" s_deferred = (Ok _, _))
    by (vm_compute; reflexivity).
  split; [exact H |].
  exact (completion_not_repeatable 1 1 "cash" "mobile" s_deferred _ _ H
           (or_intror eq_refl)).
Defined.

Lemma deferred_sale_round_trip_witness :
  exists r s1 r2 s2,
    process_checkout flat_pricing 1 7 cart_twice "pay_later" None amina s0 = (Ok r, s1)
    /\ complete_pay_later_sale (res_sale_id r) 1 "cash" s1 = (Ok r2, s2)
    /\ exists p', products (committed s2) !! 1%Z = Some p' /\ product_stock p' == 10 - 7.
Proof.
  eexists _, _, _, _.
  assert (H1 : process_checkout flat_pricing 1 7 cart_twice "pay_later" None amina s0
               = (Ok _, _)) by (vm_compute; reflexivity).
  match type of H1 with
  | _ = (Ok ?r, ?s1) =>
      assert (H2 : complete_pay_later_sale (res_sale_id r) 1 "cash" s1 = (Ok _, _))
        by (vm_compute; reflexivity)
  end.
  split; [exact H1 |]. split; [exact H2 |].
  assert (Hfk : items_reference_sales (working s0)) by constructor.
  destruct (deferred_sale_round_trip flat_pricing 1 7 cart_twice None amina "cash"
              s0 _ _ _ _ Hfk H1 H2) as (cart & Hnorm & Hstock).
  injection Hnorm as <-.
  destruct (Hstock 1%Z sugar eq_refl) as (p' & Hp' & Hs).
  exists p'. split; [exact Hp' |]. rewrite Hs. reflexivity.
Defined.

End DeferredExamples.

(** ** The schemas and the service together *)

Section SchemaAndService.
Import Schemas Services SaleRecord.
Local Open Scope Q_scope.

Lemma load_Ok_shape (mode method name : option string) (d' : CheckoutData) :
  CheckoutSchema_load (mkCheckoutData mode method name) = Ok d' ->
  (mode = Some "pay_now" /\ (method = Some "cash" \/ method = Some "mobile")
   /\ d' = mkCheckoutData mode method name)
  \/ (mode = Some "pay_later" /\ (method = None \/ method = Some "pay_on_delivery")
      /\ truthy name = true
      /\ d' = mkCheckoutData mode (Some "pay_on_delivery") name).
Proof.
  intros H.
  assert (Hrule : pairing_rule mode method name)
    by (apply load_accepted_rule; rewrite H; reflexivity).
  destruct Hrule as [(-> & [-> | ->]) | (-> & [-> | ->] & s & -> & Hs)];
    revert H; unfold CheckoutSchema_load, validate_payment_fields,
      set_default_payment_method, field_payment_mode, field_payment_method,
      field_customer_name, OneOf, raise_if;
    cbn; rewrite ?(bool_decide_eq_false_2 _ Hs); cbn; intros [= <-];
    [left | left | right | right]; repeat split; auto;
    cbn; rewrite ?(bool_decide_eq_false_2 _ Hs); reflexivity.
Qed.


(** X12. The service's own check of mode, method and customer name accepts
    every payload the checkout schema accepted, and keeps the method the
    schema settled on. *)
Theorem schema_accepted_passes_service (mode : string) (method name phone notes : option string)
    (d' : CheckoutData) :
  CheckoutSchema_load (mkCheckoutData (Some mode) method name) = Ok d' ->
  check_payment_fields mode (payment_method d') (Some (mkCustomerData name phone notes))
  = Ok (payment_method d').
Proof.
  intros H.
  apply load_Ok_shape in H
    as [([= ->] & [-> | ->] & ->) | ([= ->] & _ & Hname & ->)];
    unfold check_payment_fields, raise_if; cbn; try reflexivity.
  rewrite Hname. reflexivity.
Qed.

(** X13. Loading a checkout payload is idempotent: what the schema returns
    is accepted again and returned unchanged, so filling in the default
    method twice does no harm. *)
Theorem checkout_load_idempotent (d d' : CheckoutData) :
  CheckoutSchema_load d = Ok d' -> CheckoutSchema_load d' = Ok d'.
Proof.
  destruct d as [mode method name]. intros H.
  apply load_Ok_shape in H as [(-> & [-> | ->] & ->) | (-> & _ & Hname & ->)];
    try reflexivity.
  apply truthy_Some in Hname as (s & -> & Hs).
  unfold CheckoutSchema_load, validate_payment_fields, set_default_payment_method,
    field_payment_mode, field_payment_method, field_customer_name, OneOf, raise_if.
  cbn. rewrite (bool_decide_eq_false_2 _ Hs). reflexivity.
Qed.

(** X14. A payload the checkout schema has loaded satisfies the stricter
    rule of the sale-record schema, at both of its levels: the method is
    present, pay_later always carries pay_on_delivery, and the customer name
    is there when it must be. *)
Theorem loaded_checkout_passes_sale_record_rule (d d' : CheckoutData) :
  CheckoutSchema_load d = Ok d' ->
  validate_payment_flow d' = Ok ()
  /\ validate_customer_name (payment_mode d') (customer_name d') = Ok ()
  /\ exists value,
       payment_method d' = Some value
       /\ validate_payment_method_based_on_mode (payment_mode d') value = Ok ().
Proof.
  destruct d as [mode method name]. intros H.
  apply load_Ok_shape in H as [(-> & [-> | ->] & ->) | (-> & _ & Hname & ->)];
    unfold validate_payment_flow, validate_customer_name,
      validate_payment_method_based_on_mode, raise_if; cbn;
    rewrite ?Hname; cbn; repeat split; eauto.
Qed.

(** X15. The sale-record schema states its payment rule twice, per field
    and for the whole record; given the same mode the two agree on every
    method and customer name. *)
Theorem sale_record_levels_agree (mode : option string) (value : string)
    (name : option string) :
  validate_payment_method_based_on_mode mode value = Ok ()
  /\ validate_customer_name mode name = Ok ()
  <-> validate_payment_flow (mkCheckoutData mode (Some value) name) = Ok ().
Proof.
  unfold validate_payment_flow, validate_customer_name,
    validate_payment_method_based_on_mode, raise_if.
  cbn [payment_mode payment_method customer_name].
  destruct (bool_decide_reflect (mode = Some "pay_now")) as [-> | Hnow].
  - rewrite (bool_decide_eq_false_2 (Some "pay_now" = Some "pay_later")) by discriminate.
    cbn [andb].
    rewrite (bool_decide_ext (Some value ∈ [Some "cash"; Some "mobile"])
               (value ∈ ["cash"; "mobile"])).
    2:{ rewrite !elem_of_cons, !elem_of_nil. split.
        - intros [[= ->] | [[= ->] | []]]; auto.
        - intros [-> | [-> | []]]; auto. }
    destruct (bool_decide (value ∈ ["cash"; "mobile"])); cbn; [tauto |].
    split; [intros [[=] _] | discriminate].
  - destruct (bool_decide_reflect (mode = Some "pay_later")) as [-> | Hlater];
      cbn [andb]; [| tauto].
    destruct (bool_decide_reflect (value = "pay_on_delivery")) as [-> | Hv].
    + rewrite bool_decide_eq_true_2 by reflexivity. cbn.
      destruct (truthy name); cbn; [tauto |]. split; [intros [_ [=]] | discriminate].
    + rewrite bool_decide_eq_false_2 by congruence. cbn.
      split; [intros [[=] _] | discriminate].
Qed.

Lemma validate_quantity_Ok (value : Q) :
  validate_quantity value = Ok () <-> 0 < value /\ value <= 999.
Proof.
  unfold validate_quantity, raise_if.
  destruct (Qle_bool value 0) eqn:H0; cbn.
  - apply Qle_bool_iff in H0. split; [discriminate | intros [? _]; lra].
  - destruct (Qle_bool value 999) eqn:H999; cbn.
    + apply Qle_bool_iff in H999. split; [| reflexivity]. intros _.
      split; [| exact H999].
      apply Qnot_le_lt. intros Hle. apply Qle_bool_iff in Hle. congruence.
    + split; [discriminate |]. intros [_ Hle]. apply Qle_bool_iff in Hle. congruence.
Qed.

Lemma CartItemSchema_load_Ok (item : RawCartItem) (l : CartLine) :
  CartItemSchema_load item = Ok l ->
  item = raw_of l
  /\ (1 <= line_product_id l)%Z
  /\ 0 < line_quantity l /\ line_quantity l <= 999
  /\ 0 <= line_price l.
Proof.
  destruct item as [[| e | pid] [| e' | q] [| e'' | pr]];
    unfold CartItemSchema_load, Range_min_Z, Range_min_0, raise_if; cbn;
    try discriminate;
    try (destruct (bool_decide (1 <= pid)%Z); cbn; discriminate).
  - destruct (bool_decide (1 <= pid)%Z); cbn; [| discriminate].
    destruct (validate_quantity q); discriminate.
  - destruct (bool_decide (1 <= pid)%Z); cbn; [| discriminate].
    destruct (validate_quantity q); discriminate.
  - destruct (bool_decide_reflect (1 <= pid)%Z) as [Hpid|]; cbn; [| discriminate].
    destruct (validate_quantity q) as [[]|] eqn:Hq; cbn; [| discriminate].
    destruct (Qle_bool 0 pr) eqn:Hpr; cbn; [| discriminate].
    intros [= <-]. cbn. apply validate_quantity_Ok in Hq as [? ?].
    apply Qle_bool_iff in Hpr. auto.
Qed.

(** X16. A cart whose items the cart-item schema accepted is normalized by
    the service without error, to the same lines; every line then has a
    product id of at least 1, a quantity above 0 and at most 999, and a
    price that is not negative. *)
Theorem schema_cart_normalizes (raw_cart : list RawCartItem) (cart : list CartLine) :
  mapM CartItemSchema_load raw_cart = Ok cart ->
  normalize_cart raw_cart = Ok cart
  /\ Forall (λ l, (1 <= line_product_id l)%Z
                  /\ 0 < line_quantity l /\ line_quantity l <= 999
                  /\ 0 <= line_price l) cart.
Proof.
  unfold normalize_cart. revert cart.
  induction raw_cart as [| item rest IH]; intros cart; cbn.
  - intros [= <-]. split; [reflexivity | constructor].
  - destruct (CartItemSchema_load item) as [l|] eqn:Hitem; cbn; [| discriminate].
    destruct (mapM CartItemSchema_load rest) as [lines|] eqn:Hrest; cbn; [| discriminate].
    intros [= <-].
    apply CartItemSchema_load_Ok in Hitem as (-> & Hl).
    destruct (IH lines eq_refl) as [Hnorm Hall].
    destruct (mapM normalize_item rest) as [lines'|[]] eqn:Hn; try discriminate.
    injection Hnorm as ->.
    unfold normalize_item at 1. cbn. destruct l. cbn.
    split; [reflexivity | constructor; [exact Hl | exact Hall]].
Qed.

End SchemaAndService.

(** ** Payment methods offered and accepted *)

Section OfferedMethods.
Import Services Payments.

(** X17. Of the payment methods the service offers to the sales screen,
    whatever the shop, only cash is accepted by a pay_now checkout; card and
    bank transfer are refused, none of them is accepted for pay_later, and
    mobile, which checkout does accept, is not on offer. *)
Theorem offered_methods_accepted (shop_id : Z) (cd : option CustomerData) :
  Forall (λ m, (is_ok (check_payment_fields "pay_now" (Some (code m)) cd) = true
                <-> code m = "cash")
               /\ is_ok (check_payment_fields "pay_later" (Some (code m)) cd) = false)
    (get_available_methods shop_id)
  /\ ("mobile" ∉ code <$> get_available_methods shop_id)
  /\ is_ok (check_payment_fields "pay_now" (Some "mobile") cd) = true.
Proof.
  split; [| split; [| reflexivity]].
  - repeat constructor; cbn; try reflexivity; discriminate.
  - cbn. rewrite !not_elem_of_cons. repeat split; try discriminate. apply not_elem_of_nil.
Qed.

End OfferedMethods.

(** ** Staleness of the cached tax rate *)

Section StaleRate.
Import Services.

Lemma cache_find_head (k : Z) (rate : Q) (c : TaxCache) :
  cache_find k ((k, rate) :: c) = Some rate.
Proof. unfold cache_find. cbn. rewrite bool_decide_eq_true_2 by reflexivity. reflexivity. Qed.

(** X18. The cached lookup computes the rate from the tax table only on a
    miss.  Once a shop has been looked up, looking it up again returns the
    same rate whatever has become of the tax table in between. *)
Theorem cached_rate_is_not_refreshed (db db' : Database) (c : TaxCache) (shop_id : Z) :
  (cache_find shop_id c = None ->
   (get_tax_rate db c shop_id).1 = get_tax_rate_body db shop_id)
  /\ (get_tax_rate db' (get_tax_rate db c shop_id).2 shop_id).1
     = (get_tax_rate db c shop_id).1.
Proof.
  split.
  - intros Hmiss. unfold get_tax_rate. rewrite Hmiss. reflexivity.
  - unfold get_tax_rate at 2 3.
    destruct (cache_find shop_id c) as [rate|]; cbn [fst snd].
    + unfold get_tax_rate. rewrite cache_find_head. reflexivity.
    + unfold get_tax_rate, maxsize. cbn [take]. rewrite cache_find_head. reflexivity.
Qed.

(** A rate edited after the first lookup is not seen by the second. *)
Example stale_rate_after_edit :
  let db_new := mkDatabase ∅ [mkTax 1 (8 # 100) true false] [] [] in
  let first := get_tax_rate Sample.db0 [] 1 in
  (first.1 == 16 # 100)%Q
  /\ ((get_tax_rate db_new first.2 1).1 == 16 # 100)%Q
  /\ (get_tax_rate_body db_new 1 == 8 # 100)%Q.
Proof. repeat split; reflexivity. Qed.

End StaleRate.

(** ** Recent transactions *)

Section RecentTransactions.
Import Services ReadModels.

Lemma newest_first_total : Total newest_first.
Proof. intros a b. unfold newest_first. lia. Qed.

Lemma newest_first_trans : Transitive newest_first.
Proof. intros a b c. unfold newest_first. lia. Qed.

(** X19. The recent transactions of a shop are at most [limit] sales, all
    of them sales of that shop, ordered newest first; and they are the most
    recent ones: no sale of the shop that is left out is newer than one that
    is listed. *)
Theorem recent_transactions_are_the_newest (db : Database) (shop_id : Z) (limit : nat) :
  let listed := get_recent_transactions db shop_id limit in
  let of_shop := List.filter (λ r, bool_decide (sale_shop_id r = shop_id)) (sales db) in
  length listed = min limit (length of_shop)
  /\ Forall (λ r, r ∈ sales db /\ sale_shop_id r = shop_id) listed
  /\ StronglySorted newest_first listed
  /\ (forall r x, r ∈ of_shop -> r ∉ listed -> x ∈ listed ->
                  (sale_date r <= sale_date x)%Z).
Proof.
  cbn zeta. unfold get_recent_transactions.
  set (of_shop := List.filter _ (sales db)).
  pose proof (merge_sort_Permutation newest_first of_shop) as Hperm.
  pose proof (@StronglySorted_merge_sort _ newest_first _ newest_first_trans
                newest_first_total of_shop) as Hsorted.
  set (sorted := merge_sort newest_first of_shop) in *.
  split; [rewrite length_take, Hperm; reflexivity |].
  split.
  - apply Forall_forall. intros r Hr.
    apply elem_of_take in Hr as (i & Hi & _). apply list_elem_of_lookup_2 in Hi.
    rewrite Hperm in Hi. apply list_elem_of_In, List.filter_In in Hi as [Hin Hb].
    apply bool_decide_eq_true in Hb. split; [apply list_elem_of_In, Hin | exact Hb].
  - rewrite <- (take_drop limit sorted) in Hsorted.
    split; [eapply StronglySorted_app_1_l, Hsorted |].
    intros r x Hr Hout Hx.
    rewrite <- Hperm, <- (take_drop limit sorted) in Hr.
    apply elem_of_app in Hr as [Hr | Hr]; [contradiction |].
    exact (StronglySorted_app_1_elem_of _ _ _ _ _ Hsorted Hx Hr).
Qed.

End RecentTransactions.

(** ** The landing page and shop selection *)

Section LandingPage.
Import Routes Landing.

Lemma truthy_id_Some (o : option Z) :
  truthy_id o = true -> exists k, o = Some k /\ k <> 0%Z /\ default 0%Z o = k.
Proof.
  destruct o as [k|]; cbn; [| discriminate].
  intros H. apply negb_true_iff, bool_decide_eq_false in H. eauto.
Qed.

Lemma Shop_get_Some (shops : list ShopRow) (k : Z) (row : ShopRow) :
  Shop_get shops k = Some row -> row ∈ shops /\ shop_id (base row) = k.
Proof.
  intros H. apply List.find_some in H as [Hin Hk].
  apply bool_decide_eq_true in Hk. split; [apply list_elem_of_In, Hin | exact Hk].
Qed.

Lemma Business_get_Some (businesses : list Business) (k : Z) (b : Business) :
  Business_get businesses k = Some b -> b ∈ businesses /\ business_pk b = k.
Proof.
  intros H. apply List.find_some in H as [Hin Hk].
  apply bool_decide_eq_true in Hk. split; [apply list_elem_of_In, Hin | exact Hk].
Qed.

(** X20. The landing page shows a shop's public homepage exactly when the
    visitor is not logged in and the request resolves to a shop; a logged-in
    user never gets it, whatever the request. *)
Theorem custom_homepage_only_for_anonymous (shops : list ShopRow)
    (businesses : list Business) (request : Request) (v : Visit) (sh : Shop) :
  (index shops businesses request v).1 = RenderCustomShop sh
  <-> current_user v = None
      /\ get_shop_from_request (base <$> shops) request = Some sh.
Proof.
  unfold index.
  destruct (get_shop_from_request (base <$> shops) request) as [requested|];
    destruct (current_user v) as [u|]; cbn.
  - split; [| intros [[=] _]].
    destruct (match role u with SuperAdmin => _ | _ => _ end) as [ctx v']. discriminate.
  - split; [intros [= ->]; auto | intros [_ [= ->]]; reflexivity].
  - split; [| intros [[=] _]].
    destruct (match role u with SuperAdmin => _ | _ => _ end) as [ctx v']. discriminate.
  - split; [discriminate | intros [_ [=]]].
Qed.

Lemma tenant_context_shop (shops : list ShopRow) (businesses : list Business)
    (u : User) (v : Visit) (ctx : Context) (v' : Visit) (row : ShopRow) :
  tenant_context shops businesses u v = (ctx, v') ->
  current_shop ctx = Some row ->
  exists b,
    business ctx = Some b
    /\ business_id u = Some (business_pk b)
    /\ shop_business_id row = Some (business_pk b)
    /\ user_shop_id u = Some (shop_id (base row))
    /\ v' = v.
Proof.
  unfold tenant_context.
  destruct (truthy_id (business_id u)) eqn:Hb; cbn [negb]; [| intros [= <- _]; discriminate].
  apply truthy_id_Some in Hb as (k & Hk & _ & ->).
  destruct (Business_get businesses k) as [b|] eqn:Hbus; [| intros [= <- _]; discriminate].
  apply Business_get_Some in Hbus as [_ <-].
  destruct (truthy_id (user_shop_id u)) eqn:Hs; [| intros [= <- _]; discriminate].
  apply truthy_id_Some in Hs as (j & Hj & _ & ->).
  destruct (Shop_get shops j) as [found|] eqn:Hshop; [| intros [= <- _]; discriminate].
  apply Shop_get_Some in Hshop as [_ <-].
  destruct (bool_decide_reflect (shop_business_id found = Some (business_pk b)))
    as [Hown|]; cbn [negb]; [| intros [= <- _]; discriminate].
  intros [= <- <-] [= <-]. exists b. auto.
Qed.

(** X21. A tenant owner is only ever shown a shop of their own business: when
    the landing page puts a current shop into a tenant's context, that shop
    is the one recorded on the user, it belongs to the user's business, the
    business is in the context too, and the user's row is left alone. *)
Theorem tenant_sees_only_own_business (shops : list ShopRow) (businesses : list Business)
    (request : Request) (v : Visit) (u : User) (ctx : Context) (v' : Visit)
    (row : ShopRow) :
  current_user v = Some u ->
  role u = TenantOwner ->
  index shops businesses request v = (RenderHome ctx, v') ->
  current_shop ctx = Some row ->
  exists b,
    business ctx = Some b
    /\ business_id u = Some (business_pk b)
    /\ shop_business_id row = Some (business_pk b)
    /\ user_shop_id u = Some (shop_id (base row))
    /\ v' = v.
Proof.
  intros Hu Hrole. unfold index. rewrite Hu, Hrole.
  destruct (tenant_context shops businesses u v) as [ctx0 v0] eqn:Htenant.
  destruct (get_shop_from_request _ _); intros [= <- <-];
    eapply tenant_context_shop; eauto.
Qed.


(** Every outcome of [index] for a logged-in user, with the context it
    builds and what it does to the visit. *)
Ltac index_cases :=
  unfold index, tenant_context, staff_context;
  repeat match goal with
         | |- context [match get_shop_from_request ?a ?b with _ => _ end] =>
             destruct (get_shop_from_request a b)
         | |- context [match current_user ?v with _ => _ end] =>
             let E := fresh "Huser" in destruct (current_user v) eqn:E
         | |- context [match role ?u with _ => _ end] =>
             let E := fresh "Hrole" in destruct (role u) eqn:E
         | |- context [truthy_id ?o] =>
             let E := fresh "Htruthy" in destruct (truthy_id o) eqn:E; cbn [negb]
         | |- context [match Business_get ?a ?b with _ => _ end] =>
             let E := fresh "Hbusiness" in destruct (Business_get a b) eqn:E
         | |- context [match Shop_get ?a ?b with _ => _ end] =>
             let E := fresh "Hshop" in destruct (Shop_get a b) eqn:E
         | |- context [bool_decide ?P] =>
             let E := fresh "Hdec" in destruct (bool_decide P) eqn:E; cbn [negb]
         end.

(** X22. The flags of the landing context never contradict each other: a
    current shop excludes the select-shop and create-business prompts and
    the super-admin flag; the create-business prompt comes without business
    or shop; the select-shop prompt comes without a current shop; and a
    super admin gets no shop and no business. *)
Theorem landing_context_consistent (shops : list ShopRow) (businesses : list Business)
    (request : Request) (v : Visit) (ctx : Context) (v' : Visit) :
  index shops businesses request v = (RenderHome ctx, v') ->
  (is_Some (current_shop ctx) ->
     select_shop_flag ctx = false /\ create_business ctx = false
     /\ is_super_admin ctx = false)
  /\ (create_business ctx = true ->
        current_shop ctx = None /\ business ctx = None /\ select_shop_flag ctx = false)
  /\ (select_shop_flag ctx = true -> current_shop ctx = None)
  /\ (is_super_admin ctx = true -> ctx = mkContext None None true false false).
Proof.
  index_cases; intros [= <- <-]; cbn;
    repeat split; intros; try done;
    match goal with H : is_Some None |- _ => destruct H as [? H']; discriminate H' end.
Qed.

Lemma index_effect (shops : list ShopRow) (businesses : list Business)
    (request : Request) (v : Visit) (response : Response) (v' : Visit) :
  index shops businesses request v = (response, v') ->
  session_shop_id v' = session_shop_id v
  /\ (current_user v' = current_user v
      \/ exists u ctx,
           current_user v = Some u
           /\ current_user v' = Some (mkUser (user_id u) (role u) (business_id u) None)
           /\ response = RenderHome ctx
           /\ select_shop_flag ctx = true
           /\ (Shop_get shops (default 0%Z (user_shop_id u)) = None
               \/ exists row, Shop_get shops (default 0%Z (user_shop_id u)) = Some row
                              /\ role u = TenantOwner
                              /\ shop_business_id row <> business_id u)).
Proof.
  index_cases; intros [= <- <-]; cbn; rewrite ?Huser; cbn.
  all: split; [reflexivity |].
  all: try (left; reflexivity).
  all: right; do 2 eexists; repeat (split; [reflexivity |]).
  all: try (left; exact Hshop).
  all: right; eexists; split; [exact Hshop |]; split; [exact Hrole |].
  all: apply bool_decide_eq_false in Hdec.
  all: apply truthy_id_Some in Htruthy as (k & Hk & _ & Hd).
  all: rewrite Hd in Hbusiness; apply Business_get_Some in Hbusiness as [_ Hb].
  all: congruence.
Qed.

Lemma index_user_ext (shops : list ShopRow) (businesses : list Business)
    (r1 r2 : Request) (v1 v2 : Visit) :
  current_user v1 = current_user v2 ->
  current_user (index shops businesses r1 v1).2
  = current_user (index shops businesses r2 v2).2.
Proof.
  intros Hsame. unfold index. rewrite Hsame.
  destruct (current_user v2) as [u|] eqn:Hu2.
  - assert (Hctx : forall w1 w2 : Visit,
               current_user w1 = Some u -> current_user w2 = Some u ->
               current_user
                 (match role u with
                  | SuperAdmin => (mkContext None None true false false, w1)
                  | TenantOwner => tenant_context shops businesses u w1
                  | Admin | Cashier => staff_context shops businesses u w1
                  | OtherRole =>
                      (default_context,
                       flash "Invalid user role. Please contact support." "error" w1)
                  end).2
               = current_user
                   (match role u with
                    | SuperAdmin => (mkContext None None true false false, w2)
                    | TenantOwner => tenant_context shops businesses u w2
                    | Admin | Cashier => staff_context shops businesses u w2
                    | OtherRole =>
                        (default_context,
                         flash "Invalid user role. Please contact support." "error" w2)
                    end).2).
    { intros w1 w2 H1 H2. unfold tenant_context, staff_context.
      destruct (role u); cbn; rewrite ?H1, ?H2; try reflexivity;
        repeat match goal with
               | |- context [truthy_id ?o] => destruct (truthy_id o); cbn [negb]
               | |- context [match Business_get ?a ?b with _ => _ end] =>
                   destruct (Business_get a b)
               | |- context [match Shop_get ?a ?b with _ => _ end] =>
                   destruct (Shop_get a b)
               | |- context [bool_decide ?P] => destruct (bool_decide P); cbn [negb]
               end; cbn; rewrite ?H1, ?H2; reflexivity. }
    specialize (Hctx v1 v2 Hsame Hu2).
    destruct (get_shop_from_request _ r1), (get_shop_from_request _ r2);
      repeat match goal with
             | |- context [let '(_, _) := ?p in _] => destruct p
             end; cbn in *; exact Hctx.
  - destruct (get_shop_from_request _ r1), (get_shop_from_request _ r2); cbn;
      rewrite ?Hsame, ?Hu2; reflexivity.
Qed.

Lemma index_user_without_shop (shops : list ShopRow) (businesses : list Business)
    (request : Request) (v : Visit) (u : User) :
  current_user v = Some u -> user_shop_id u = None ->
  current_user (index shops businesses request v).2 = Some u.
Proof.
  intros Hu Hnone. unfold index, tenant_context, staff_context. rewrite Hu, Hnone. cbn.
  destruct (get_shop_from_request _ _), (role u); cbn; rewrite ?Hu; try reflexivity;
    repeat match goal with
           | |- context [truthy_id ?o] => destruct (truthy_id o); cbn [negb]
           | |- context [match Business_get ?a ?b with _ => _ end] =>
               destruct (Business_get a b)
           end; cbn; rewrite ?Hu; reflexivity.
Qed.

(** X23. The landing page writes to the user's row only to clear a recorded
    shop that is missing or, for a tenant, belongs to another business; it
    then asks for a shop to be selected.  It never touches the session, and
    loading the page a second time changes the user no further. *)
Theorem index_only_clears_invalid_shop (shops : list ShopRow) (businesses : list Business)
    (request request2 : Request) (v : Visit) (response : Response) (v' : Visit) :
  index shops businesses request v = (response, v') ->
  session_shop_id v' = session_shop_id v
  /\ (current_user v' = current_user v
      \/ exists u ctx,
           current_user v = Some u
           /\ current_user v' = Some (mkUser (user_id u) (role u) (business_id u) None)
           /\ response = RenderHome ctx
           /\ select_shop_flag ctx = true
           /\ (Shop_get shops (default 0%Z (user_shop_id u)) = None
               \/ exists row, Shop_get shops (default 0%Z (user_shop_id u)) = Some row
                              /\ role u = TenantOwner
                              /\ shop_business_id row <> business_id u))
  /\ current_user (index shops businesses request2 v').2 = current_user v'.
Proof.
  intros Hindex.
  destruct (index_effect _ _ _ _ _ _ Hindex) as [Hsession Huser].
  split; [exact Hsession |]. split; [exact Huser |].
  destruct Huser as [Hsame | (u & ctx & _ & Hu' & _)].
  - rewrite (index_user_ext shops businesses request2 request v' v Hsame), Hindex.
    reflexivity.
  - rewrite Hu'. apply index_user_without_shop; [exact Hu' | reflexivity].
Qed.


(** What a call of [select_shop] can do. *)
Lemma select_shop_cases (shops : list ShopRow) (k : Z) (v : Visit)
    (response : Response) (v' : Visit) :
  select_shop shops k v = (response, v') ->
  (response = RedirectSalesScreen k
   /\ exists u row,
        current_user v = Some u
        /\ (role u = Admin \/ role u = Cashier \/ role u = TenantOwner)
        /\ Shop_get shops k = Some row
        /\ (truthy_id (business_id u) = true -> shop_business_id row = business_id u)
        /\ current_user v' = Some (mkUser (user_id u) (role u) (business_id u) (Some k))
        /\ session_shop_id v' = Some k)
  \/ ((response = RedirectHome \/ response = NotFound)
      /\ current_user v' = current_user v
      /\ session_shop_id v' = session_shop_id v).
Proof.
  unfold select_shop.
  destruct (current_user v) as [u|] eqn:Hu; [| intros [= <- <-]; right; cbn; auto].
  destruct (bool_decide_reflect (role u ∈ [Admin; Cashier; TenantOwner])) as [Hrole|];
    cbn [negb]; [| intros [= <- <-]; right; cbn; auto].
  destruct (Shop_get shops k) as [row|] eqn:Hshop; [| intros [= <- <-]; right; auto].
  destruct (truthy_id (business_id u)) eqn:Hb; cbn [andb].
  - destruct (bool_decide_reflect (shop_business_id row = business_id u)) as [Hown|];
      cbn [negb]; [| intros [= <- <-]; right; cbn; auto].
    intros [= <- <-]. left. split; [reflexivity |]. exists u, row. cbn. rewrite ?Hu.
    rewrite !elem_of_cons, elem_of_nil in Hrole. repeat split; auto; try tauto; congruence.
  - intros [= <- <-]. left. split; [reflexivity |]. exists u, row. cbn. rewrite ?Hu.
    rewrite !elem_of_cons, elem_of_nil in Hrole. repeat split; auto; try tauto; congruence.
Qed.

(** X24. Selecting a shop either succeeds or changes neither the user nor
    the session.  It succeeds only for an admin, a cashier or a tenant owner,
    only for a shop that exists and, when the user has a business, belongs
    to that business; it then records the shop both on the user and in the
    session and redirects to the sales screen. *)
Theorem select_shop_outcome (shops : list ShopRow) (k : Z) (v : Visit)
    (response : Response) (v' : Visit) :
  select_shop shops k v = (response, v') ->
  (response = RedirectSalesScreen k
   /\ exists u row,
        current_user v = Some u
        /\ (role u = Admin \/ role u = Cashier \/ role u = TenantOwner)
        /\ Shop_get shops k = Some row
        /\ (truthy_id (business_id u) = true -> shop_business_id row = business_id u)
        /\ current_user v' = Some (mkUser (user_id u) (role u) (business_id u) (Some k))
        /\ session_shop_id v' = Some k)
  \/ ((response = RedirectHome \/ response = NotFound)
      /\ current_user v' = current_user v
      /\ session_shop_id v' = session_shop_id v).
Proof. apply select_shop_cases. Qed.

(** X25. After a shop has been selected, the landing page shows it: for an
    admin or a cashier always, for a tenant owner when their business exists,
    provided the shop's id is not 0 (an id of 0 is read as "no shop"). *)
Theorem selected_shop_is_shown (shops : list ShopRow) (businesses : list Business)
    (request : Request) (k : Z) (v v1 : Visit) (u : User) :
  select_shop shops k v = (RedirectSalesScreen k, v1) ->
  current_user v = Some u ->
  k <> 0%Z ->
  (role u = TenantOwner ->
   truthy_id (business_id u) = true
   /\ is_Some (Business_get businesses (default 0%Z (business_id u)))) ->
  exists ctx row,
    index shops businesses request v1 = (RenderHome ctx, v1)
    /\ current_shop ctx = Some row
    /\ shop_id (base row) = k
    /\ select_shop_flag ctx = false.
Proof.
  intros Hselect Hu Hk Htenant.
  apply select_shop_cases in Hselect
    as [(_ & u' & row & Hu' & Hrole & Hshop & Hown & Huser1 & _) | ([[=] | [=]] & _)].
  rewrite Hu in Hu'. injection Hu' as <-.
  pose proof (Shop_get_Some _ _ _ Hshop) as [_ Hid].
  unfold index. rewrite Huser1. cbn [role].
  assert (Htruthy : truthy_id (Some k) = true)
    by (cbn; rewrite bool_decide_eq_false_2 by exact Hk; reflexivity).
  destruct Hrole as [Hr | [Hr | Hr]]; rewrite Hr.
  - unfold staff_context. cbn [user_shop_id]. rewrite Htruthy. cbn [negb].
    change (default 0%Z (Some k)) with k.
    rewrite Hshop. destruct (get_shop_from_request _ _); eauto 10.
  - unfold staff_context. cbn [user_shop_id]. rewrite Htruthy. cbn [negb].
    change (default 0%Z (Some k)) with k.
    rewrite Hshop. destruct (get_shop_from_request _ _); eauto 10.
  - destruct (Htenant Hr) as [Hb [b Hbus]]. specialize (Hown Hb).
    unfold tenant_context. cbn [business_id user_shop_id]. rewrite Hb, Htruthy.
    cbn [negb]. change (default 0%Z (Some k)) with k. rewrite Hbus, Hshop.
    apply Business_get_Some in Hbus as [_ Hpk].
    apply truthy_id_Some in Hb as (j & Hj & _ & Hd). rewrite Hd in Hpk.
    rewrite bool_decide_eq_true_2 by congruence. cbn [negb].
    destruct (get_shop_from_request _ _); eauto 10.
Qed.

Lemma NoDup_fmap_same {A B} (f : A -> B) (l : list A) (x y : A) :
  NoDup (f <$> l) -> x ∈ l -> y ∈ l -> f x = f y -> x = y.
Proof.
  induction l as [| z l IH]; cbn; intros Hnd Hx Hy Hf.
  - apply elem_of_nil in Hx as [].
  - apply NoDup_cons in Hnd as [Hz Hnd].
    apply elem_of_cons in Hx as [-> | Hx]; apply elem_of_cons in Hy as [-> | Hy]; auto.
    + exfalso. apply Hz. rewrite Hf. apply list_elem_of_fmap. eauto.
    + exfalso. apply Hz. rewrite <- Hf. apply list_elem_of_fmap. eauto.
Qed.

(** X26. With shop ids unique, the page of a shop is served by its id whether
    or not the shop is active or has homepage settings, whereas the slug route
    answers only for active shops; when it does, the redirect it issues leads
    to the page of that same shop. *)
Theorem shop_pages_by_id_and_slug (shops : list ShopRow) :
  NoDup ((λ row, shop_id (base row)) <$> shops) ->
  (forall row, row ∈ shops ->
     shop_homepage shops (shop_id (base row)) = RenderCustomShop (base row))
  /\ (forall shop_slug sh,
        by_slug (base <$> shops) shop_slug = Some sh ->
        slug sh = shop_slug /\ shop_is_active sh = true
        /\ shop_homepage_by_slug shops shop_slug = RedirectShopHomepage (shop_id sh)
        /\ follow shops (shop_homepage_by_slug shops shop_slug) = RenderCustomShop sh)
  /\ (forall shop_slug,
        Forall (λ row, slug (base row) = shop_slug -> shop_is_active (base row) = false)
          shops ->
        shop_homepage_by_slug shops shop_slug = NotFound).
Proof.
  intros Hnd.
  assert (Hid : forall row, row ∈ shops ->
                  shop_homepage shops (shop_id (base row)) = RenderCustomShop (base row)).
  { intros row Hrow. unfold shop_homepage.
    destruct (Shop_get shops (shop_id (base row))) as [found|] eqn:Hget.
    - apply Shop_get_Some in Hget as [Hin Hsame].
      rewrite (NoDup_fmap_same _ _ _ _ Hnd Hin Hrow Hsame). reflexivity.
    - exfalso. apply List.find_none with (x := row) in Hget;
        [| apply list_elem_of_In, Hrow].
      rewrite bool_decide_eq_true_2 in Hget by reflexivity. discriminate. }
  split; [exact Hid |]. split.
  - intros shop_slug sh Hslug. unfold shop_homepage_by_slug. rewrite Hslug. cbn [follow].
    apply List.find_some in Hslug as [Hin Hb].
    apply andb_true_iff in Hb as [Hs Ha]. apply bool_decide_eq_true in Hs.
    apply list_elem_of_In, list_elem_of_fmap in Hin as (row & -> & Hrow).
    repeat split; auto.
  - intros shop_slug Hall. unfold shop_homepage_by_slug.
    destruct (by_slug (base <$> shops) shop_slug) as [sh|] eqn:Hslug; [| reflexivity].
    apply List.find_some in Hslug as [Hin Hb].
    apply andb_true_iff in Hb as [Hs Ha]. apply bool_decide_eq_true in Hs.
    apply list_elem_of_In, list_elem_of_fmap in Hin as (row & -> & Hrow).
    rewrite Forall_forall in Hall. rewrite (Hall row Hrow Hs) in Ha. discriminate.
Qed.

End LandingPage.

(** ** Worked landing requests *)

Section LandingExamples.
Import Routes Landing Sample LandingSample.

Lemma tenant_sees_only_own_business_witness :
  exists ctx v',
    index rows0 businesses0 plain_request (visit_of tenant10) = (RenderHome ctx, v')
    /\ current_shop ctx = Some row_a
    /\ exists b,
         business ctx = Some b
         /\ business_id tenant10 = Some (business_pk b)
         /\ shop_business_id row_a = Some (business_pk b)
         /\ user_shop_id tenant10 = Some (shop_id (base row_a))
         /\ v' = visit_of tenant10.
Proof.
  eexists _, _.
  assert (H : index rows0 businesses0 plain_request (visit_of tenant10)
              = (RenderHome _, _)) by (vm_compute; reflexivity).
  split; [exact H |]. split; [reflexivity |].
  exact (tenant_sees_only_own_business rows0 businesses0 plain_request (visit_of tenant10)
           tenant10 _ _ row_a eq_refl eq_refl H eq_refl).
Defined.

Lemma landing_context_consistent_witness :
  exists ctx v',
    index rows0 businesses0 plain_request (visit_of tenant10_stray) = (RenderHome ctx, v')
    /\ select_shop_flag ctx = true
    /\ current_shop ctx = None.
Proof.
  eexists _, _.
  assert (H : index rows0 businesses0 plain_request (visit_of tenant10_stray)
              = (RenderHome _, _)) by (vm_compute; reflexivity).
  split; [exact H |]. split; [reflexivity |].
  destruct (landing_context_consistent rows0 businesses0 plain_request
              (visit_of tenant10_stray) _ _ H) as (_ & _ & Hselect & _).
  exact (Hselect eq_refl).
Defined.

Lemma index_only_clears_invalid_shop_witness :
  exists response v',
    index rows0 businesses0 plain_request (visit_of tenant10_stray) = (response, v')
    /\ current_user v' = Some (mkUser 100 TenantOwner (Some 10%Z) None)
    /\ current_user (index rows0 businesses0 request_slug v').2 = current_user v'.
Proof.
  eexists _, _.
  assert (H : index rows0 businesses0 plain_request (visit_of tenant10_stray) = (_, _))
    by (vm_compute; reflexivity).
  split; [exact H |]. split; [reflexivity |].
  destruct (index_only_clears_invalid_shop rows0 businesses0 plain_request request_slug
              (visit_of tenant10_stray) _ _ H) as (_ & _ & Hagain).
  exact Hagain.
Defined.

Lemma select_shop_outcome_witness :
  exists v',
    select_shop rows0 2 (visit_of cashier0) = (RedirectSalesScreen 2, v')
    /\ current_user v' = Some (mkUser 101 Cashier None (Some 2%Z))
    /\ session_shop_id v' = Some 2%Z.
Proof.
  eexists.
  assert (H : select_shop rows0 2 (visit_of cashier0) = (RedirectSalesScreen 2, _))
    by (vm_compute; reflexivity).
  split; [exact H |].
  destruct (select_shop_outcome rows0 2 (visit_of cashier0) _ _ H)
    as [(_ & u & row & Hu & _ & _ & _ & Huser & Hsession)
       | ([Hresp | Hresp] & _)]; try discriminate Hresp.
  injection Hu as <-. split; [exact Huser | exact Hsession].
Defined.

Lemma selected_shop_is_shown_witness :
  exists v1 ctx row,
    select_shop rows0 2 (visit_of cashier0) = (RedirectSalesScreen 2, v1)
    /\ index rows0 businesses0 plain_request v1 = (RenderHome ctx, v1)
    /\ current_shop ctx = Some row
    /\ shop_id (base row) = 2%Z
    /\ select_shop_flag ctx = false.
Proof.
  eexists.
  assert (H : select_shop rows0 2 (visit_of cashier0) = (RedirectSalesScreen 2, _))
    by (vm_compute; reflexivity).
  destruct (selected_shop_is_shown rows0 businesses0 plain_request 2 (visit_of cashier0)
              _ cashier0 H eq_refl) as (ctx & row & Hindex);
    [discriminate | discriminate |].
  exists ctx, row. split; [exact H | exact Hindex].
Defined.

Lemma shop_pages_by_id_and_slug_witness :
  NoDup ((λ row, shop_id (base row)) <$> rows0)
  /\ shop_homepage rows0 (shop_id (base row_b)) = RenderCustomShop (base row_b)
  /\ follow rows0 (shop_homepage_by_slug rows0 "shop1") = RenderCustomShop shop_b.
Proof.
  assert (Hnd : NoDup ((λ row, shop_id (base row)) <$> rows0)).
  { cbn. apply NoDup_cons. split; [| apply NoDup_singleton].
    rewrite list_elem_of_singleton. discriminate. }
  split; [exact Hnd |].
  destruct (shop_pages_by_id_and_slug rows0 Hnd) as (Hid & Hslug & _).
  split.
  - apply Hid. right. left.
  - destruct (Hslug "shop1" shop_b eq_refl) as (_ & _ & _ & Hfollow). exact Hfollow.
Defined.

End LandingExamples.

(** ** The backup script *)

Section BackupFile.
Import Backup.






(** A table without columns has empty rows, and then two different
    databases can leave the same file. *)
Example backup_ambiguous_without_columns :
  backup_rows [("a", [[]; ["Table: b"]])] = backup_rows [("a", []); ("b", [])].
Proof. reflexivity. Qed.

(** The file has one naming row and one empty row per table, plus the data. *)
Lemma backup_rows_length (tables : list (string * list Row)) :
  length (backup_rows tables) = sum_list ((λ t, 2 + length t.2)%nat <$> tables).
Proof.
  induction tables as [| [name rows] tables IH]; [reflexivity |].
  change (backup_rows ((name, rows) :: tables))
    with (["Table: " +:+ name] :: (rows ++ [[]]) ++ backup_rows tables).
  cbn [length]. rewrite !length_app, IH. cbn. lia.
Qed.

End BackupFile.

(** ** Worked payloads *)

Section SchemaExamples.
Import Schemas Services SaleRecord Sample.
Local Open Scope Q_scope.

Lemma schema_accepted_passes_service_witness :
  exists d',
    CheckoutSchema_load (mkCheckoutData (Some "pay_later") None (Some "Amina")) = Ok d'
    /\ check_payment_fields "pay_later" (payment_method d')
         (Some (mkCustomerData (Some "Amina") (Some "0700000000") None))
       = Ok (Some "pay_on_delivery").
Proof.
  eexists.
  assert (H : CheckoutSchema_load (mkCheckoutData (Some "pay_later") None (Some "Amina"))
              = Ok _) by (vm_compute; reflexivity).
  split; [exact H |].
  exact (schema_accepted_passes_service "pay_later" None (Some "Amina")
           (Some "0700000000") None _ H).
Defined.

Lemma checkout_load_idempotent_witness :
  exists d',
    CheckoutSchema_load (mkCheckoutData (Some "pay_later") None (Some "Amina")) = Ok d'
    /\ CheckoutSchema_load d' = Ok d'.
Proof.
  eexists.
  assert (H : CheckoutSchema_load (mkCheckoutData (Some "pay_later") None (Some "Amina"))
              = Ok _) by (vm_compute; reflexivity).
  split; [exact H | exact (checkout_load_idempotent _ _ H)].
Defined.

Lemma loaded_checkout_passes_sale_record_rule_witness :
  exists d',
    CheckoutSchema_load (mkCheckoutData (Some "pay_now") (Some "mobile") None) = Ok d'
    /\ validate_payment_flow d' = Ok ().
Proof.
  eexists.
  assert (H : CheckoutSchema_load (mkCheckoutData (Some "pay_now") (Some "mobile") None)
              = Ok _) by (vm_compute; reflexivity).
  split; [exact H |].
  exact (proj1 (loaded_checkout_passes_sale_record_rule _ _ H)).
Defined.

Lemma schema_cart_normalizes_witness :
  exists cart,
    mapM CartItemSchema_load cart_twice = Ok cart
    /\ normalize_cart cart_twice = Ok cart.
Proof.
  eexists.
  assert (H : mapM CartItemSchema_load cart_twice = Ok _) by (vm_compute; reflexivity).
  split; [exact H | exact (proj1 (schema_cart_normalizes _ _ H))].
Defined.

End SchemaExamples.

(** ** Reordering a sale *)

Section ReorderLabel.
Import Services Completion Reorder Sample Scenario.
Local Open Scope Q_scope.

(** X28. Paying a deferred sale changes the label under which the sale is
    offered for reordering, and nothing else of the reorder data: before the
    completion the sale is found and, when every product of its lines still
    has a price, labelled pay_later; afterwards the same items and totals
    come back labelled pay_now.  A line whose product is gone fails both
    reads alike. *)
Theorem paid_sale_reorders_as_pay_now sid shop method s r s' (selling_price : gmap Z Q) :
  complete_pay_later_sale sid shop method s = (Ok r, s') ->
  match reorder_sale (working s) selling_price sid shop with
  | Ok (Some before) =>
      original_payment_mode before = "pay_later"
      /\ reorder_sale (committed s') selling_price sid shop
         = Ok (Some (mkReorderData (items before) (original_total before)
                       (estimated_total before) "pay_now"))
  | Ok None => False
  | Raise e => reorder_sale (committed s') selling_price sid shop = Raise e
  end.
Proof.
  intros H.
  apply completion_Ok_state in H
    as (sale & lines & s1 & _ & Hget & Hpaid & _ & _ & -> & _).
  unfold reorder_sale, get_sale_details. unfold get_sale_with_items in Hget.
  cbn [committed sales cart_items].
  change (λ r0 : Sale, bool_decide (sale_id r0 = sid) && bool_decide (sale_shop_id r0 = shop))
    with (is_sale sid shop) in *.
  rewrite (find_fmap_stable (is_sale sid shop)
             (λ row, if is_sale sid shop row then mark_paid (Some method) row else row))
    by (intros row; destruct (is_sale sid shop row) eqn:Hrow; [| exact Hrow];
        unfold is_sale in *; exact Hrow).
  destruct (List.find (is_sale sid shop) (sales (working s))) as [found|] eqn:Hfind;
    [| discriminate].
  injection Hget as -> <-.
  apply List.find_some in Hfind as [_ Hhit].
  cbn [fmap option_fmap option_map]. rewrite Hhit. cbn [mark_paid sale_id sale_total sale_is_paid].
  rewrite Hpaid.
  destruct (mapM _ _) as [items_|e]; cbn; [| reflexivity].
  split; reflexivity.
Qed.

Lemma paid_sale_reorders_as_pay_now_witness :
  exists r s' before,
    complete_pay_later_sale 1 1 "cash" s_deferred = (Ok r, s')
    /\ reorder_sale (working s_deferred) {[ 1%Z := 120 ]} 1 1 = Ok (Some before)
    /\ original_payment_mode before = "pay_later"
    /\ reorder_sale (committed s') {[ 1%Z := 120 ]} 1 1
       = Ok (Some (mkReorderData (items before) (original_total before)
                     (estimated_total before) "pay_now")).
Proof.
  eexists _, _, _.
  assert (H : complete_pay_later_sale 1 1 "cash" s_deferred = (Ok _, _))
    by (vm_compute; reflexivity).
  assert (Hbefore : reorder_sale (working s_deferred) {[ 1%Z := 120 ]} 1 1 = Ok (Some _))
    by (vm_compute; reflexivity).
  split; [exact H |]. split; [exact Hbefore |].
  pose proof (paid_sale_reorders_as_pay_now 1 1 "cash" s_deferred _ _ {[ 1%Z := 120 ]} H)
    as Hlabel.
  rewrite Hbefore in Hlabel. destruct Hlabel as [Hlater Hafter].
  split; [exact Hlater | exact Hafter].
Defined.

End ReorderLabel.
